(** * A shallow embedding of the RAG agent's ingestion and conversation core

    The development follows the Python sources

      - [Agent/app.py]                      ([App]: one query turn, response
                                             post-processing, the chat history),
      - [Agent/models/agent.py]             ([RAGAgent.run]: the two prompt
                                             templates),
      - [Agent/utils/document_processor.py] ([DocumentProcessor]: cache key,
                                             chunk cache, [process_file]),
      - [Agent/utils/ui_components.py]      ([UIComponents.render_document_upload]:
                                             the batch-ingestion loop).

    Python [str] values are sequences of Unicode code points, [bytes] values
    are sequences of bytes.  Stateful code is written in a small state-and-
    exception monad over the [World] record; a raised exception keeps the
    state reached so far, as in Python. *)

From Stdlib Require Import ZArith NArith List String Ascii Bool Lia QArith.
From Stdlib.Strings Require Import Byte.
From stdpp Require Import base option list countable gmap.
Import ListNotations.

Local Open Scope N_scope.

(* ===================================================================== *)
(** * Part I.  The model                                                   *)
(* ===================================================================== *)

(** ** Python [str] and [bytes] *)

(** A [str] is a list of code points, a [bytes] object a list of bytes. *)
Abbreviation pystr := (list N).
Abbreviation pybytes := (list byte).

(** [bytes.decode('utf-8')] in strict mode: shortest form only, no
    surrogates, nothing above U+10FFFF.  [None] stands for
    [UnicodeDecodeError]. *)
Definition cont (b : N) : bool := (0x80 <=? b) && (b <=? 0xBF).

Fixpoint utf8_decode_N (bs : list N) : option pystr :=
  match bs with
  | [] => Some []
  | b0 :: r0 =>
    if b0 <? 0x80 then option_map (cons b0) (utf8_decode_N r0)
    else if (0xC2 <=? b0) && (b0 <=? 0xDF) then
      match r0 with
      | b1 :: r1 =>
        if cont b1
        then option_map (cons (N.lor (N.shiftl (N.land b0 0x1F) 6) (N.land b1 0x3F)))
                        (utf8_decode_N r1)
        else None
      | _ => None
      end
    else if (0xE0 <=? b0) && (b0 <=? 0xEF) then
      match r0 with
      | b1 :: b2 :: r2 =>
        if cont b1 && cont b2
           && (negb (b0 =? 0xE0) || (0xA0 <=? b1))
           && (negb (b0 =? 0xED) || (b1 <=? 0x9F))
        then option_map
               (cons (N.lor (N.shiftl (N.land b0 0x0F) 12)
                        (N.lor (N.shiftl (N.land b1 0x3F) 6) (N.land b2 0x3F))))
               (utf8_decode_N r2)
        else None
      | _ => None
      end
    else if (0xF0 <=? b0) && (b0 <=? 0xF4) then
      match r0 with
      | b1 :: b2 :: b3 :: r3 =>
        if cont b1 && cont b2 && cont b3
           && (negb (b0 =? 0xF0) || (0x90 <=? b1))
           && (negb (b0 =? 0xF4) || (b1 <=? 0x8F))
        then option_map
               (cons (N.lor (N.shiftl (N.land b0 0x07) 18)
                        (N.lor (N.shiftl (N.land b1 0x3F) 12)
                           (N.lor (N.shiftl (N.land b2 0x3F) 6) (N.land b3 0x3F)))))
               (utf8_decode_N r3)
        else None
      | _ => None
      end
    else None
  end.

Definition utf8_decode (bs : pybytes) : option pystr :=
  utf8_decode_N (List.map Byte.to_N bs).

(** [str.encode()] (UTF-8, strict): a lone surrogate raises
    [UnicodeEncodeError], here [None]. *)
Definition byte_of_N (n : N) : byte :=
  match Byte.of_N (n mod 256) with Some b => b | None => x00 end.

Definition utf8_encode_cp (c : N) : option pybytes :=
  if c <? 0x80 then Some [byte_of_N c]
  else if c <? 0x800 then
    Some [byte_of_N (N.lor 0xC0 (N.shiftr c 6));
          byte_of_N (N.lor 0x80 (N.land c 0x3F))]
  else if c <? 0x10000 then
    if (0xD800 <=? c) && (c <=? 0xDFFF) then None
    else Some [byte_of_N (N.lor 0xE0 (N.shiftr c 12));
               byte_of_N (N.lor 0x80 (N.land (N.shiftr c 6) 0x3F));
               byte_of_N (N.lor 0x80 (N.land c 0x3F))]
  else if c <? 0x110000 then
    Some [byte_of_N (N.lor 0xF0 (N.shiftr c 18));
          byte_of_N (N.lor 0x80 (N.land (N.shiftr c 12) 0x3F));
          byte_of_N (N.lor 0x80 (N.land (N.shiftr c 6) 0x3F));
          byte_of_N (N.lor 0x80 (N.land c 0x3F))]
  else None.

Fixpoint encode (s : pystr) : option pybytes :=
  match s with
  | [] => Some []
  | c :: s' =>
    match utf8_encode_cp c, encode s' with
    | Some bs, Some rest => Some (bs ++ rest)
    | _, _ => None
    end
  end.

(** A string literal of the (UTF-8 encoded) source file. *)
Definition lit (s : string) : pystr :=
  match utf8_decode (list_byte_of_string s) with
  | Some cps => cps
  | None => []
  end.

(** A bytes literal [b"..."]. *)
Definition blit (s : string) : pybytes := list_byte_of_string s.

(** [sep.join(parts)] *)
Fixpoint join (sep : pystr) (parts : list pystr) : pystr :=
  match parts with
  | [] => []
  | [p] => p
  | p :: ps => p ++ sep ++ join sep ps
  end.

(** [str.isspace] on one character: the characters [str.strip()] removes. *)
Definition is_space (c : N) : bool :=
  ((0x09 <=? c) && (c <=? 0x0D)) || ((0x1C <=? c) && (c <=? 0x20))
  || (c =? 0x85) || (c =? 0xA0) || (c =? 0x1680)
  || ((0x2000 <=? c) && (c <=? 0x200A))
  || (c =? 0x2028) || (c =? 0x2029) || (c =? 0x202F) || (c =? 0x205F)
  || (c =? 0x3000).

Fixpoint lstrip (s : pystr) : pystr :=
  match s with
  | c :: s' => if is_space c then lstrip s' else s
  | [] => []
  end.

Definition rstrip (s : pystr) : pystr := rev (lstrip (rev s)).

(** [s.strip()] *)
Definition strip (s : pystr) : pystr := rstrip (lstrip s).

(** [str.lower()] on the ASCII letters.  No character outside ASCII has a
    lower-case form containing one of [. p d f t x], so the suffix tests of
    [process_file] are decided by this part of the mapping alone. *)
Definition lower_cp (c : N) : N :=
  if (0x41 <=? c) && (c <=? 0x5A) then c + 0x20 else c.

Definition lower (s : pystr) : pystr := List.map lower_cp s.

(** [s.startswith(p)], returning the rest of [s] after [p]. *)
Fixpoint strip_prefix (p s : pystr) : option pystr :=
  match p, s with
  | [], _ => Some s
  | a :: p', b :: s' => if a =? b then strip_prefix p' s' else None
  | _ :: _, [] => None
  end.

Definition startswith (s p : pystr) : bool :=
  match strip_prefix p s with Some _ => true | None => false end.

Definition endswith (s p : pystr) : bool := startswith (rev s) (rev p).

(** The first occurrence of [needle] in [s]: the text before it and the
    text after it ([s.partition(needle)] when it is found). *)
Fixpoint find (needle s : pystr) : option (pystr * pystr) :=
  match strip_prefix needle s with
  | Some rest => Some ([], rest)
  | None =>
    match s with
    | [] => None
    | c :: s' =>
      match find needle s' with
      | Some (pre, post) => Some (c :: pre, post)
      | None => None
      end
    end
  end.

(** ** The reasoning-marker pattern of [App._process_response]

    [think_pattern = r'<think>([\s\S]*?)</think>']: the literal opening
    marker, a lazy group of arbitrary characters (newlines included), the
    literal closing marker. *)
Definition think_open : pystr := Eval vm_compute in lit "<think>".
Definition think_close : pystr := Eval vm_compute in lit "</think>".

(** [re.search(think_pattern, s)]: the leftmost match starts at the first
    opening marker that has a closing marker after it, which is the first
    opening marker at all when some match exists; the lazy group ends at
    the first closing marker after it.  The result is the text before the
    match, group 1, and the text after the match. *)
Definition re_search (s : pystr) : option (pystr * pystr * pystr) :=
  match find think_open s with
  | None => None
  | Some (pre, after_open) =>
    match find think_close after_open with
    | None => None
    | Some (group1, post) => Some (pre, group1, post)
    end
  end.

(** [re.sub(think_pattern, '', s)]: every non-overlapping match, scanning
    left to right, is replaced by the empty string ([count] is left at its
    default [0], which means all).  The text after a match is shorter than
    the subject, so [length s] rounds are enough. *)
Fixpoint re_sub_fuel (fuel : nat) (s : pystr) : pystr :=
  match fuel with
  | O => s
  | S fuel' =>
    match re_search s with
    | None => s
    | Some (pre, _, post) => pre ++ re_sub_fuel fuel' post
    end
  end.

Definition re_sub (s : pystr) : pystr := re_sub_fuel (length s) s.

(** ** [hashlib.md5] (RFC 1321)

    [DocumentProcessor._get_cache_path] keys the chunk cache by the MD5
    digest of the document, so the digest is computed here as the library
    does: 32-bit words with wrap-around, little-endian, four rounds of
    sixteen steps per 64-byte block. *)
Module MD5.
Local Open Scope Z_scope.

Definition w32 (x : Z) : Z := Z.land x 0xFFFFFFFF.

Definition not32 (x : Z) : Z := Z.lxor x 0xFFFFFFFF.

Definition rotl (x c : Z) : Z :=
  w32 (Z.lor (Z.shiftl x c) (Z.shiftr x (32 - c))).

(** Per-step shift amounts. *)
Definition S : list Z :=
  [7; 12; 17; 22; 7; 12; 17; 22; 7; 12; 17; 22; 7; 12; 17; 22;
   5;  9; 14; 20; 5;  9; 14; 20; 5;  9; 14; 20; 5;  9; 14; 20;
   4; 11; 16; 23; 4; 11; 16; 23; 4; 11; 16; 23; 4; 11; 16; 23;
   6; 10; 15; 21; 6; 10; 15; 21; 6; 10; 15; 21; 6; 10; 15; 21].

(** [K[i] = floor(2^32 * abs(sin(i + 1)))]. *)
Definition K : list Z :=
  [0xd76aa478; 0xe8c7b756; 0x242070db; 0xc1bdceee;
   0xf57c0faf; 0x4787c62a; 0xa8304613; 0xfd469501;
   0x698098d8; 0x8b44f7af; 0xffff5bb1; 0x895cd7be;
   0x6b901122; 0xfd987193; 0xa679438e; 0x49b40821;
   0xf61e2562; 0xc040b340; 0x265e5a51; 0xe9b6c7aa;
   0xd62f105d; 0x02441453; 0xd8a1e681; 0xe7d3fbc8;
   0x21e1cde6; 0xc33707d6; 0xf4d50d87; 0x455a14ed;
   0xa9e3e905; 0xfcefa3f8; 0x676f02d9; 0x8d2a4c8a;
   0xfffa3942; 0x8771f681; 0x6d9d6122; 0xfde5380c;
   0xa4beea44; 0x4bdecfa9; 0xf6bb4b60; 0xbebfbc70;
   0x289b7ec6; 0xeaa127fa; 0xd4ef3085; 0x04881d05;
   0xd9d4d039; 0xe6db99e5; 0x1fa27cf8; 0xc4ac5665;
   0xf4292244; 0x432aff97; 0xab9423a7; 0xfc93a039;
   0x655b59c3; 0x8f0ccc92; 0xffeff47d; 0x85845dd1;
   0x6fa87e4f; 0xfe2ce6e0; 0xa3014314; 0x4e0811a1;
   0xf7537e82; 0xbd3af235; 0x2ad7d2bb; 0xeb86d391].

(** [n] as [k] little-endian bytes. *)
Fixpoint le_bytes (k : nat) (n : Z) : list Z :=
  match k with
  | O => []
  | Datatypes.S k' => Z.land n 0xFF :: le_bytes k' (Z.shiftr n 8)
  end.

(** The message followed by the bit [1], zeros up to 56 modulo 64, and the
    bit length on 64 bits. *)
Definition pad (msg : list Z) : list Z :=
  let len := List.length msg in
  msg ++ 0x80 :: List.repeat 0 ((119 - len mod 64) mod 64)%nat
      ++ le_bytes 8 (Z.land (8 * Z.of_nat len) 0xFFFFFFFFFFFFFFFF).

(** Little-endian 32-bit words. *)
Fixpoint words (bs : list Z) : list Z :=
  match bs with
  | b0 :: b1 :: b2 :: b3 :: rest =>
    Z.lor b0 (Z.lor (Z.shiftl b1 8) (Z.lor (Z.shiftl b2 16) (Z.shiftl b3 24)))
    :: words rest
  | _ => []
  end.

Definition state : Type := Z * Z * Z * Z.

Definition init : state := (0x67452301, 0xefcdab89, 0x98badcfe, 0x10325476).

Definition step (M : list Z) (st : state) (i : nat) : state :=
  let '(A, B, C, D) := st in
  let '(F, g) :=
    if (i <? 16)%nat then (Z.lor (Z.land B C) (Z.land (not32 B) D), i)
    else if (i <? 32)%nat then
      (Z.lor (Z.land D B) (Z.land (not32 D) C), ((5 * i + 1) mod 16)%nat)
    else if (i <? 48)%nat then
      (Z.lxor B (Z.lxor C D), ((3 * i + 5) mod 16)%nat)
    else (Z.lxor C (Z.lor B (not32 D)), ((7 * i) mod 16)%nat) in
  let F' := w32 (F + A + List.nth i K 0 + List.nth g M 0) in
  (D, w32 (B + rotl F' (List.nth i S 0)), B, C).

Definition block (st : state) (M : list Z) : state :=
  let '(a, b, c, d) := st in
  let '(A, B, C, D) := List.fold_left (step M) (List.seq 0 64) st in
  (w32 (a + A), w32 (b + B), w32 (c + C), w32 (d + D)).

(** The 16-word blocks of a word sequence. *)
Fixpoint blocks (fuel : nat) (ws : list Z) : list (list Z) :=
  match fuel, ws with
  | Datatypes.S fuel', _ :: _ => List.firstn 16 ws :: blocks fuel' (List.skipn 16 ws)
  | _, _ => []
  end.

(** [hashlib.md5(msg).digest()] *)
Definition digest (msg : pybytes) : list Z :=
  let ws := words (pad (List.map (fun b => Z.of_N (Byte.to_N b)) msg)) in
  let '(a, b, c, d) := List.fold_left block (blocks (List.length ws) ws) init in
  le_bytes 4 a ++ le_bytes 4 b ++ le_bytes 4 c ++ le_bytes 4 d.

Definition hex_digit (d : Z) : N :=
  if d <? 10 then Z.to_N (48 + d) else Z.to_N (87 + d).

(** [hashlib.md5(msg).hexdigest()]: 32 lower-case hexadecimal digits. *)
Definition hexdigest (msg : pybytes) : pystr :=
  List.flat_map (fun b => [hex_digit (Z.shiftr b 4); hex_digit (Z.land b 0xF)])
                (digest msg).

End MD5.

(** ** Documents, messages, exceptions *)

(** [langchain.schema.Document]: the text of a chunk and its metadata. *)
Record Document := mkDocument {
  page_content : pystr;
  metadata : list (pystr * pystr)
}.

(** The roles [App] passes to [chat_history.add_message]. *)
Inductive Role := user | assistant | assistant_think | retrieved_doc.

(** A message carries plain text, or the list of chunk texts for
    [retrieved_doc]. *)
Inductive Content :=
| Text (s : pystr)
| Texts (l : list pystr).

(** An entry of [chat_history.history], with the two fields
    [render_chat_history] reads. *)
Record Message := mkMessage {
  role : Role;
  content : Content
}.

(** The status messages Streamlit is asked to show ([st.success],
    [st.warning], [st.error]); headings, listings and spinners are not
    recorded. *)
Inductive UiEvent :=
| st_success (s : pystr)
| st_warning (s : pystr)
| st_error (s : pystr).

(** The exceptions of the modelled code; all are caught by
    [except Exception]. *)
Inductive exn :=
| ValueError (msg : pystr)
| TypeError (msg : pystr)
| Exception (msg : pystr)
| UnicodeDecodeError (obj : pybytes)
| UnicodeEncodeError (obj : pystr)
| ValidationError
| ExternalError (msg : pystr).

Inductive outcome (A : Type) :=
| Return (a : A)
| Raise (e : exn).
Arguments Return {A} a.
Arguments Raise {A} e.

(** An object handed to [process_file]: a Streamlit upload (it has
    [getvalue] and [name]), a [bytes] object, or anything else. *)
Record UploadedFile := mkUploadedFile {
  name : pystr;
  getvalue : pybytes
}.

Inductive file_arg :=
| Uploaded (f : UploadedFile)
| Content_bytes (b : pybytes)
| Other_object.

(** What [process_file] hands back: a [str], a list of documents, or
    [None]. *)
Inductive pyvalue :=
| PyStr (s : pystr)
| PyDocs (l : list Document)
| PyNone.

(** How a section of the page ends: it returns, or [st.rerun()] abandons
    the script run.  What [st.rerun()] raises is no [Exception]: no
    [except Exception] catches it. *)
Inductive ending (A : Type) :=
| Returned (a : A)
| Rerun.
Arguments Returned {A} a.
Arguments Rerun {A}.

(** ** The world *)

Record World := mkWorld {
  (** [App.chat_history.history] *)
  history : list Message;
  (** [st.session_state.processed_documents] *)
  processed_documents : list pystr;
  (** the files below [cache_dir], by path; [None] is a file that does
      not parse back into documents *)
  cache_files : gmap pystr (option (list Document));
  (** whether a cache file can be opened for writing *)
  cache_writable : bool;
  (** [vector_store.vector_store]: the documents the index was built from *)
  vector_store : option (list Document);
  (** the Streamlit output so far *)
  ui : list UiEvent
}.

Definition set_history (h : list Message) (w : World) : World :=
  mkWorld h (processed_documents w) (cache_files w) (cache_writable w)
          (vector_store w) (ui w).

Definition set_processed_documents (p : list pystr) (w : World) : World :=
  mkWorld (history w) p (cache_files w) (cache_writable w)
          (vector_store w) (ui w).

Definition set_cache_files (c : gmap pystr (option (list Document)))
  (w : World) : World :=
  mkWorld (history w) (processed_documents w) c (cache_writable w)
          (vector_store w) (ui w).

Definition set_vector_store (v : option (list Document)) (w : World) : World :=
  mkWorld (history w) (processed_documents w) (cache_files w)
          (cache_writable w) v (ui w).

Definition set_ui (u : list UiEvent) (w : World) : World :=
  mkWorld (history w) (processed_documents w) (cache_files w)
          (cache_writable w) (vector_store w) u.

(** ** [config/settings.py] *)
Module settings.

Definition DEFAULT_MODEL : pystr := lit "qwe3:8b".

Definition DEFAULT_SIMILARITY_THRESHOLD : Q := 7 # 10.

Definition CHUNK_SIZE : N := 300.

Definition CHUNK_OVERLAP : N := 30.

Definition MAX_RETRIEVED_DOCS : N := 3.

Definition AVAILABLE_MODELS : list pystr :=
  [lit "qwen3:1.7b"; lit "deepseek-r1:1.5b"; lit "qwen3:8b"].

Definition EMBEDDING_MODEL : pystr := lit "bge-m3:latest".

Definition AVAILABLE_EMBEDDING_MODELS : list pystr :=
  [lit "bge-m3:latest"; lit "nomic-embed-text:latest"; lit "mxbai-embed-large:latest";
   lit "bge-large-en-v1.5:latest"; lit "bge-large-zh-v1.5:latest"].

End settings.

(** The session settings a turn reads from [st.session_state]. *)
Record Settings := mkSettings {
  rag_enabled : bool;
  similarity_threshold : Q;
  model_version : pystr
}.

(** ** What lies outside the sources at hand

    Library and service calls, and the two methods of the vector store
    service ([services/vector_store.py]) that rest on the embedding
    service.  They are taken as given, and each may fail where the real
    call may. *)
Class Externals := {
  (** [VectorStoreService.search_documents(query, threshold)] on the
      current index *)
  search_documents : option (list Document) -> pystr -> Q -> outcome (list Document);
  (** [VectorStoreService.create_vector_store(docs)] *)
  create_vector_store : list Document -> outcome (list Document);
  (** the separator [VectorStoreService.get_context] joins chunk texts with *)
  context_separator : pystr;
  (** [Agent(model=Ollama(id=model_version), ...).run(full_prompt).content] *)
  agent_run : pystr -> pystr -> outcome pystr;
  (** [PyPDFLoader(temp_file.name).load()] on a temporary copy of the bytes *)
  pdf_load : pybytes -> outcome (list Document);
  (** [RecursiveCharacterTextSplitter(chunk_size=CHUNK_SIZE,
      chunk_overlap=CHUNK_OVERLAP, separators=SEPARATORS).split_documents] *)
  split_documents : list Document -> list Document;
  (** [str(e)] for an exception raised by a library *)
  library_text : exn -> pystr
}.

(** ** The state-and-exception monad *)

Definition M (A : Type) : Type := World -> World * outcome A.

Definition ret {A} (a : A) : M A := fun w => (w, Return a).

Definition raise {A} (e : exn) : M A := fun w => (w, Raise e).

Definition bind {A B} (m : M A) (k : A -> M B) : M B :=
  fun w =>
    match m w with
    | (w', Return a) => k a w'
    | (w', Raise e) => (w', Raise e)
    end.

(** [try: m  except Exception as e: h e] *)
Definition try_except {A} (m : M A) (h : exn -> M A) : M A :=
  fun w =>
    match m w with
    | (w', Return a) => (w', Return a)
    | (w', Raise e) => h e w'
    end.

Definition call {A} (o : outcome A) : M A := fun w => (w, o).

Definition modify (f : World -> World) : M unit := fun w => (f w, Return tt).

Notation "x <- m ;; k" := (bind m (fun x => k))
  (at level 100, m at next level, right associativity).
Notation "m ;;; k" := (bind m (fun _ => k))
  (at level 100, right associativity).

(** Python truth of a [str] or a list: non-empty. *)
Definition truthy {A} (l : list A) : bool :=
  match l with [] => false | _ :: _ => true end.

Definition show (ev : UiEvent) : M unit :=
  modify (fun w => set_ui (ui w ++ [ev]) w).

Definition nl : pystr := [10].

Section Program.
Context {E : Externals}.

(** [str(e)] *)
Definition str_exn (e : exn) : pystr :=
  match e with
  | ValueError m | TypeError m | Exception m | ExternalError m => m
  | _ => library_text e
  end.

(** Modelled from the spec: [utils/decorators.py] is not among the
    sources.  Section 7 asks that every failure produce a human-readable
    message without terminating the session: the decorated function
    catches the exception, shows it when [show_error] is set, and returns
    [None] (here the [none] of the result type). *)
Definition error_handler {A} (show_error : bool) (none : A) (m : M A) : M A :=
  try_except m
    (fun e =>
       (if show_error then show (st_error (str_exn e)) else ret tt) ;;;
       ret none).

(** Modelled from the spec: [log_execution] of [utils/decorators.py] only
    writes to the log, which is not part of the world. *)
Definition log_execution {A} (m : M A) : M A := m.

End Program.

(** ** [utils/document_processor.py] *)
Module DocumentProcessor.
Section Methods.
Context {E : Externals}.

(** [self.cache_dir]; the splitter is an external. *)
Record t := mk { cache_dir : pystr }.

(** [DocumentProcessor()] with the default [cache_dir=".cache"]. *)
Definition default : t := mk (lit ".cache").

(** [cache_key = hashlib.md5(file_content + file_name.encode()).hexdigest()] *)
Definition cache_key (file_content : pybytes) (file_name : pystr) : outcome pystr :=
  match encode file_name with
  | Some name_bytes => Return (MD5.hexdigest (file_content ++ name_bytes))
  | None => Raise (UnicodeEncodeError file_name)
  end.

(** [return self.cache_dir / f"{cache_key}.json"] *)
Definition _get_cache_path (self : t) (file_content : pybytes) (file_name : pystr)
  : outcome pystr :=
  match cache_key file_content file_name with
  | Return key => Return (cache_dir self ++ lit "/" ++ key ++ lit ".json")
  | Raise e => Raise e
  end.

(** A missing file and a file that fails to load both give [None]; the
    exception is logged, never propagated. *)
Definition _load_from_cache (cache_path : pystr) : M (option (list Document)) :=
  fun w =>
    (w, Return match cache_files w !! cache_path with
               | Some (Some docs) => Some docs
               | _ => None
               end).

(** The strings [json.dump] writes for [doc.dict()]: the text, and the
    keys and values of the metadata. *)
Definition document_strings (doc : Document) : list pystr :=
  page_content doc :: List.flat_map (fun item => [item.1; item.2]) (metadata doc).

(** The first of these strings that UTF-8 cannot encode, if there is
    one: a text with a lone surrogate. *)
Definition unencodable (documents : list Document) : option pystr :=
  List.find (fun s => match encode s with Some _ => false | None => true end)
            (List.flat_map document_strings documents).

(** [open(cache_path, 'w', encoding='utf-8')]: the file is created, or
    emptied when it exists, and an empty file does not parse.  Where the
    cache takes no write the call fails and the file system is as it
    was. *)
Definition open_for_writing (cache_path : pystr) : M unit :=
  fun w =>
    if cache_writable w
    then (set_cache_files (<[cache_path := None]> (cache_files w)) w, Return tt)
    else (w, Raise (ExternalError (lit "[Errno 13] Permission denied"))).

(** [json.dump(docs_data, f, ensure_ascii=False, indent=2)] into the open
    file.  With [ensure_ascii=False] every string is written as it is,
    and the file refuses the first one that UTF-8 cannot encode: the
    JSON text stays cut short, which does not parse.  Otherwise the file
    holds the documents; that [json.load] and the constructor of
    [Document] read back what [doc.dict()] and [json.dump] wrote is taken
    from the libraries. *)
Definition json_dump (documents : list Document) (cache_path : pystr) : M unit :=
  match unencodable documents with
  | Some s => raise (UnicodeEncodeError s)
  | None =>
    modify (fun w =>
      set_cache_files (<[cache_path := Some documents]> (cache_files w)) w)
  end.

(** A failed write is logged and otherwise ignored, whether it failed
    before or after the file was opened. *)
Definition _save_to_cache (cache_path : pystr) (documents : list Document) : M unit :=
  try_except
    (open_for_writing cache_path ;;;
     json_dump documents cache_path)
    (fun e => ret tt).

Definition _process_pdf_body (self : t) (file_content : pybytes) (file_name : pystr)
  : M (option (list Document)) :=
  cache_path <- call (_get_cache_path self file_content file_name) ;;
  cached_docs <- _load_from_cache cache_path ;;
  match cached_docs with
  | Some docs => ret (Some docs)
  | None =>
    try_except
      (documents <- call (pdf_load file_content) ;;
       let split_docs := split_documents documents in
       (if truthy split_docs then _save_to_cache cache_path split_docs else ret tt) ;;;
       ret (Some split_docs))
      (fun e => raise e)
  end.

(** [@error_handler() @log_execution def _process_pdf] *)
Definition _process_pdf (self : t) (file_content : pybytes) (file_name : pystr)
  : M (option (list Document)) :=
  error_handler true None (log_execution (_process_pdf_body self file_content file_name)).

(** The [ValueError] of [process_file]. *)
Definition bad_argument : exn :=
  ValueError (lit "参数错误：需要提供有效的文件对象或文件内容和文件名").

Definition process_file_body (self : t) (uploaded_file_or_content : file_arg)
  (file_name : option pystr) : M pyvalue :=
  try_except
    (input <-
       match uploaded_file_or_content, file_name with
       | Uploaded f, _ => ret (getvalue f, name f)
       | Content_bytes b, Some n => if truthy n then ret (b, n) else raise bad_argument
       | _, _ => raise bad_argument
       end ;;
     let '(file_content, file_name) := input in
     if endswith (lower file_name) (lit ".pdf") then
       docs <- _process_pdf self file_content file_name ;;
       match uploaded_file_or_content with
       | Uploaded _ =>
         match docs with
         | Some ds => ret (PyStr (join (nl ++ nl) (List.map page_content ds)))
         | None => raise (TypeError (lit "'NoneType' object is not iterable"))
         end
       | _ =>
         ret match docs with Some ds => PyDocs ds | None => PyNone end
       end
     else if endswith (lower file_name) (lit ".txt") then
       match utf8_decode file_content with
       | Some text => ret (PyStr text)
       | None => raise (UnicodeDecodeError file_content)
       end
     else ret (PyStr (lit "不支持的文件类型: " ++ file_name)))
    (fun e => raise (Exception (lit "处理文件失败: " ++ str_exn e))).

(** [@error_handler() @log_execution def process_file] *)
Definition process_file (self : t) (uploaded_file_or_content : file_arg)
  (file_name : option pystr) : M pyvalue :=
  error_handler true PyNone
    (log_execution (process_file_body self uploaded_file_or_content file_name)).

(** A file [self.cache_dir.glob("*.json")] yields: directly below
    [cache_dir], with a name that ends in [.json]. *)
Definition is_cache_file (self : t) (path : pystr) : bool :=
  match strip_prefix (cache_dir self ++ lit "/") path with
  | Some file_name =>
    endswith file_name (lit ".json") && negb (bool_decide (47 ∈ file_name))
  | None => false
  end.

(** [for file in self.cache_dir.glob("*.json"): file.unlink()]; a refused
    removal is logged and raised again.  Where the cache takes no write,
    the first removal is refused. *)
Definition clear_cache (self : t) : M unit :=
  try_except
    (fun w =>
       if cache_writable w then
         (set_cache_files
            (filter (fun entry => is_cache_file self entry.1 = false) (cache_files w)) w,
          Return tt)
       else if bool_decide (map_Exists (fun path _ => is_cache_file self path = true)
                              (cache_files w))
       then (w, Raise (ExternalError (lit "[Errno 13] Permission denied")))
       else (w, Return tt))
    (fun e => raise e).

End Methods.
End DocumentProcessor.

(** ** [utils/ui_components.py] *)
Module UIComponents.
Section Methods.
Context {E : Externals}.

(** [Document(page_content=result, metadata={"source": name})]: the
    constructor validates that the content is a [str]. *)
Definition make_document (result : pyvalue) (source : pystr) : M Document :=
  match result with
  | PyStr s => ret (mkDocument s [(lit "source", source)])
  | _ => raise ValidationError
  end.

(** The body of [for uploaded_file in uploaded_files]; [all_docs] is the
    list the loop extends. *)
Definition process_uploaded_file (document_processor : DocumentProcessor.t)
  (uploaded_file : UploadedFile) (all_docs : list Document) : M (list Document) :=
  fun w =>
    if bool_decide (name uploaded_file ∈ processed_documents w) then
      (show (st_warning (lit "⚠️ 已存在: " ++ name uploaded_file)) ;;;
       ret all_docs) w
    else
      try_except
        (result <- DocumentProcessor.process_file document_processor
                     (Uploaded uploaded_file) None ;;
         all_docs' <-
           match result with
           | PyDocs l => ret (all_docs ++ l)
           | _ =>
             doc <- make_document result (name uploaded_file) ;;
             ret (all_docs ++ [doc])
           end ;;
         modify (fun w' =>
           set_processed_documents (processed_documents w' ++ [name uploaded_file]) w') ;;;
         show (st_success (lit "✅ 已处理: " ++ name uploaded_file)) ;;;
         ret all_docs')
        (fun e =>
           show (st_error (lit "❌ 处理失败: " ++ name uploaded_file
                             ++ lit " - " ++ str_exn e)) ;;;
           ret all_docs) w.

Fixpoint process_uploaded_files (document_processor : DocumentProcessor.t)
  (uploaded_files : list UploadedFile) (all_docs : list Document)
  : M (list Document) :=
  match uploaded_files with
  | [] => ret all_docs
  | uploaded_file :: rest =>
    all_docs' <- process_uploaded_file document_processor uploaded_file all_docs ;;
    process_uploaded_files document_processor rest all_docs'
  end.

(** Modelled from the spec: [services/vector_store.py] is not among the
    sources.  Section 4.3: [clear()] drops all indexed vectors and resets
    the ProcessedDocumentRegistry. *)
Definition clear_index : M unit :=
  modify (fun w => set_processed_documents [] (set_vector_store None w)).

(** The end of [render_document_upload]: the list of processed documents
    and, below it, the button that clears them, both rendered only while
    the registry holds a name; then the return.  [clear_clicked] is
    whether that button was pressed. *)
Definition list_processed_documents (clear_clicked : bool)
  (all_docs : list Document) : M (ending (list Document)) :=
  fun w =>
    if truthy (processed_documents w) && clear_clicked then
      (clear_index ;;;
       modify (set_processed_documents []) ;;;
       show (st_success (lit "✅ 所有文档已清除")) ;;;
       ret Rerun) w
    else ret (Returned all_docs) w.

(** [render_document_upload]: [uploaded_files] is what the uploader
    returned (it is created with [type=["pdf", "txt"]]), [clicked]
    whether the process button was pressed. *)
Definition render_document_upload (document_processor : DocumentProcessor.t)
  (uploaded_files : list UploadedFile) (clicked clear_clicked : bool)
  : M (ending (list Document)) :=
  (fun w =>
     match vector_store w with
     | None => show (st_warning (lit "⚠️ 请在侧边栏配置向量存储以启用文档处理。")) w
     | Some _ => ret tt w
     end) ;;;
  all_docs <-
    (if truthy uploaded_files && clicked
     then process_uploaded_files document_processor uploaded_files []
     else ret []) ;;
  (if truthy uploaded_files && truthy all_docs then
     index <- call (create_vector_store all_docs) ;;
     modify (set_vector_store (Some index))
   else ret tt) ;;;
  list_processed_documents clear_clicked all_docs.

(** [options.index(current)], when [current in options]. *)
Fixpoint index (current : pystr) (options : list pystr) : option nat :=
  match options with
  | [] => None
  | option :: rest =>
    if bool_decide (option = current) then Some O
    else option_map S (index current rest)
  end.

(** [options.index(current) if current in options else 0] *)
Definition preselected (options : list pystr) (current : pystr) : nat :=
  match index current options with
  | Some i => i
  | None => O
  end.

(** [st.sidebar.selectbox(label, options=options, index=index)]: the
    option the user picked, the one at [index] while nothing was picked;
    [None] when there is no such option. *)
Definition selectbox (options : list pystr) (index : nat) (picked : option nat)
  : option pystr :=
  options !! match picked with Some i => i | None => index end.

(** [render_model_selection]: [(new_model, new_embedding_model)]. *)
Definition render_model_selection (available_models : list pystr)
  (current_model : pystr) (embedding_models : list pystr)
  (current_embedding_model : pystr) (picked_model picked_embedding : option nat)
  : option pystr * option pystr :=
  (selectbox available_models (preselected available_models current_model)
     picked_model,
   selectbox embedding_models (preselected embedding_models current_embedding_model)
     picked_embedding).

End Methods.
End UIComponents.

(** ** [models/agent.py] *)
Module RAGAgent.
Section Methods.
Context {E : Externals}.

(** The RAG-mode f-string of [run]. *)
Definition rag_template (prompt context : pystr) : pystr :=
  lit "【检索内容】" ++ nl ++ context ++ nl ++ nl
  ++ lit "【用户问题】" ++ nl ++ prompt ++ nl ++ nl
  ++ lit "请严格按照【检索内容】作答。但如果是询问天气相关信息，请直接使用query_weather工具获取实时天气数据。".

(** The plain-mode f-string of [run]. *)
Definition plain_template (prompt : pystr) : pystr :=
  lit "【用户问题】" ++ nl ++ prompt ++ nl ++ nl
  ++ lit "请提供准确、有帮助的回答。如果用户询问天气，请使用query_weather工具。".

(** [if context:] is false for [None] and for the empty string. *)
Definition full_prompt (prompt : pystr) (context : option pystr) : pystr :=
  match context with
  | Some c => if truthy c then rag_template prompt c else plain_template prompt
  | None => plain_template prompt
  end.

(** [RAGAgent(model_version).run(prompt, context)] *)
Definition run (model_version prompt : pystr) (context : option pystr) : M pystr :=
  call (agent_run model_version (full_prompt prompt context)).

End Methods.
End RAGAgent.

(** ** [app.py] *)
Module App.
Section Methods.
Context {E : Externals}.

(** Modelled from the spec: [utils/chat_history.py] is not among the
    sources.  Section 4.7: [addMessage(role, content)] appends to the
    ordered sequence and mutates no prior entry. *)
Definition add_message (r : Role) (c : Content) : M unit :=
  modify (fun w => set_history (history w ++ [mkMessage r c]) w).

(** Modelled from the spec: [services/vector_store.py] is not among the
    sources.  Section 4.5: the retrieved chunk texts are joined, in ranked
    order, into a single context block. *)
Definition get_context (docs : list Document) : pystr :=
  join context_separator (List.map page_content docs).

(** [think_content] of [_process_response]: [None] without a match, else
    group 1 stripped. *)
Definition think_content (response : pystr) : option pystr :=
  match re_search response with
  | Some (_, group1, _) => Some (strip group1)
  | None => None
  end.

(** [response_wo_think] of [_process_response]. *)
Definition response_wo_think (response : pystr) : pystr :=
  match re_search response with
  | Some _ => strip (re_sub response)
  | None => response
  end.

(** [docs] defaults to [None]. *)
Definition _process_response (response : pystr) (docs : option (list Document))
  : M unit :=
  add_message assistant (Text (response_wo_think response)) ;;;
  (match think_content response with
   | Some tc => if truthy tc then add_message assistant_think (Text tc) else ret tt
   | None => ret tt
   end) ;;;
  match docs with
  | Some ds =>
    if truthy ds
    then add_message retrieved_doc (Texts (List.map page_content ds))
    else ret tt
  | None => ret tt
  end.

Definition _process_rag_query_body (cfg : Settings) (prompt : pystr) : M unit :=
  docs <- (fun w => call (search_documents (vector_store w) prompt
                            (similarity_threshold cfg)) w) ;;
  let context := get_context docs in
  response <- RAGAgent.run (model_version cfg) prompt (Some context) ;;
  _process_response response (Some docs).

(** [@error_handler() @log_execution def _process_rag_query] *)
Definition _process_rag_query (cfg : Settings) (prompt : pystr) : M unit :=
  error_handler true tt (log_execution (_process_rag_query_body cfg prompt)).

Definition _process_simple_query_body (cfg : Settings) (prompt : pystr) : M unit :=
  response <- RAGAgent.run (model_version cfg) prompt None ;;
  _process_response response None.

(** [@error_handler() @log_execution def _process_simple_query] *)
Definition _process_simple_query (cfg : Settings) (prompt : pystr) : M unit :=
  error_handler true tt (log_execution (_process_simple_query_body cfg prompt)).

Definition process_user_input_body (cfg : Settings) (prompt : pystr) : M unit :=
  add_message user (Text prompt) ;;;
  if rag_enabled cfg
  then _process_rag_query cfg prompt
  else _process_simple_query cfg prompt.

(** [@error_handler() @log_execution def process_user_input] *)
Definition process_user_input (cfg : Settings) (prompt : pystr) : M unit :=
  error_handler true tt (log_execution (process_user_input_body cfg prompt)).

(** The query of a turn as written, before any decorator catches: what
    [process_user_input] runs after it has logged the user message. *)
Definition query_body (cfg : Settings) (prompt : pystr) : M unit :=
  if rag_enabled cfg
  then _process_rag_query_body cfg prompt
  else _process_simple_query_body cfg prompt.

(** [@error_handler() @log_execution def render_document_upload]: the
    upload section, with what the uploader and the two buttons returned.
    The method returns nothing, so that the [None] of the error handler
    and a normal return look alike. *)
Definition render_document_upload (document_processor : DocumentProcessor.t)
  (uploaded_files : list UploadedFile) (clicked clear_clicked : bool)
  : M (ending unit) :=
  error_handler true (Returned tt)
    (log_execution
       (result <- UIComponents.render_document_upload document_processor
                    uploaded_files clicked clear_clicked ;;
        ret match result with
            | Returned _ => Returned tt
            | Rerun => Rerun
            end)).

End Methods.
End App.

(** ** The optional messages of a turn

    What [_process_response] appends after the answer: the reasoning when
    it is non-empty, the chunk texts when some chunk was retrieved. *)
Definition think_messages (response : pystr) : list Message :=
  match App.think_content response with
  | Some tc => if truthy tc then [mkMessage assistant_think (Text tc)] else []
  | None => []
  end.

Definition doc_messages (docs : option (list Document)) : list Message :=
  match docs with
  | Some ds =>
    if truthy ds then [mkMessage retrieved_doc (Texts (List.map page_content ds))]
    else []
  | None => []
  end.

(** ** Failure of one file of a batch

    Processing [uploaded_file] fails when [process_file] raises or hands
    back [None] instead of a text or a document list. *)
Definition file_fails {E : Externals} (document_processor : DocumentProcessor.t)
  (uploaded_file : UploadedFile) (w : World) : bool :=
  match DocumentProcessor.process_file document_processor
          (Uploaded uploaded_file) None w with
  | (_, Return (PyStr _)) | (_, Return (PyDocs _)) => false
  | _ => true
  end.

(** ** What a save leaves in a cache file

    The file [_save_to_cache] has opened holds the documents when every
    string of them can be encoded, and a text cut short, which does not
    load, otherwise. *)
Definition written (documents : list Document) : option (list Document) :=
  match DocumentProcessor.unencodable documents with
  | None => Some documents
  | Some _ => None
  end.

(** A computation that leaves the registry of processed names alone. *)
Definition keeps_registry {A} (m : M A) : Prop :=
  forall w, processed_documents (fst (m w)) = processed_documents w.

(** ** Notions used to state further properties *)

(** One of [0-9a-f]. *)
Definition is_lower_hex (c : N) : bool :=
  ((48 <=? c) && (c <=? 57)) || ((97 <=? c) && (c <=? 102)).

(** Every readable cache file holds at least one chunk. *)
Definition cache_nonempty (w : World) : Prop :=
  forall path docs, cache_files w !! path = Some (Some docs) -> docs <> [].

(** A computation that keeps a property of the world, whatever its
    outcome. *)
Definition preserves {A} (P : World -> Prop) (m : M A) : Prop :=
  forall w, P w -> P (fst (m w)).

(** A property of the world that does not look at the display. *)
Definition ignores_ui (P : World -> Prop) : Prop :=
  forall w u, P w -> P (set_ui u w).

(** The world once [render_document_upload] has shown its notice about
    a missing vector store. *)
Definition notice_shown (w : World) : World :=
  match vector_store w with
  | None => set_ui (ui w ++ [st_warning (lit "⚠️ 请在侧边栏配置向量存储以启用文档处理。")]) w
  | Some _ => w
  end.

(** [f] on every number of [depth] bits that extends [prefix]: an
    exhaustive check over a small range. *)
Fixpoint all_bits (f : N -> bool) (depth : nat) (prefix : N) : bool :=
  match depth with
  | O => f prefix
  | S d => if all_bits f d (2 * prefix) then all_bits f d (2 * prefix + 1) else false
  end.

(** What the decoder asks of a continuation byte [0x80 | d], [d] six bits. *)
Definition cont_ok (d : N) : bool :=
  (N.lor 0x80 d <? 256) && cont (N.lor 0x80 d) && (N.land (N.lor 0x80 d) 0x3F =? d).

(** What the decoder asks of the first two bytes of a two-, three- and
    four-byte sequence, in terms of the code point without its last six,
    six and twelve bits. *)
Definition lead2_ok (q : N) : bool :=
  negb ((2 <=? q) && (q <? 32))
  || ((N.lor 0xC0 q <? 256) && negb (N.lor 0xC0 q <? 0x80)
      && (0xC2 <=? N.lor 0xC0 q) && (N.lor 0xC0 q <=? 0xDF)
      && (N.land (N.lor 0xC0 q) 0x1F =? q)).

Definition lead3_ok (x : N) : bool :=
  let b0 := N.lor 0xE0 (N.shiftr x 6) in
  let b1 := N.lor 0x80 (N.land x 0x3F) in
  negb ((32 <=? x) && (x <? 1024) && negb ((0x360 <=? x) && (x <? 0x380)))
  || ((b0 <? 256) && negb (b0 <? 0x80) && negb ((0xC2 <=? b0) && (b0 <=? 0xDF))
      && (0xE0 <=? b0) && (b0 <=? 0xEF)
      && (negb (b0 =? 0xE0) || (0xA0 <=? b1))
      && (negb (b0 =? 0xED) || (b1 <=? 0x9F))
      && (N.land b0 0x0F =? N.shiftr x 6)).

Definition lead4_ok (y : N) : bool :=
  let b0 := N.lor 0xF0 (N.shiftr y 6) in
  let b1 := N.lor 0x80 (N.land y 0x3F) in
  negb ((16 <=? y) && (y <? 272))
  || ((b0 <? 256) && negb (b0 <? 0x80) && negb ((0xC2 <=? b0) && (b0 <=? 0xDF))
      && negb ((0xE0 <=? b0) && (b0 <=? 0xEF))
      && (0xF0 <=? b0) && (b0 <=? 0xF4)
      && (negb (b0 =? 0xF0) || (0x90 <=? b1))
      && (negb (b0 =? 0xF4) || (b1 <=? 0x8F))
      && (N.land b0 0x07 =? N.shiftr y 6)).

(** ** Concrete environments and worlds, to run the model on *)

Definition unavailable {A} : outcome A :=
  Raise (ExternalError (lit "connection refused")).

(** No service answers, no PDF parses. *)
Definition offline : Externals := {|
  search_documents := fun _ _ _ => unavailable;
  create_vector_store := fun _ => unavailable;
  context_separator := nl ++ nl;
  agent_run := fun _ _ => unavailable;
  pdf_load := fun _ => unavailable;
  split_documents := fun docs => docs;
  library_text := fun _ => lit "error"
|}.

(** Retrieval returns [docs], the model answers [response], every PDF
    loads as [pages], and the splitter cuts each page into one chunk per
    character. *)
Definition scripted (docs : list Document) (response : pystr)
  (pages : list Document) : Externals := {|
  search_documents := fun _ _ _ => Return docs;
  create_vector_store := fun ds => Return ds;
  context_separator := nl ++ nl;
  agent_run := fun _ _ => Return response;
  pdf_load := fun _ => Return pages;
  split_documents :=
    List.flat_map (fun d => List.map (fun c => mkDocument [c] (metadata d))
                                     (page_content d));
  library_text := fun _ => lit "error"
|}.

(** A fresh session: nothing said, nothing ingested, an empty cache. *)
Definition fresh : World := mkWorld [] [] ∅ true None [].

(** The session state [App._init_session_state] sets up. *)
Definition default_settings : Settings :=
  mkSettings true settings.DEFAULT_SIMILARITY_THRESHOLD settings.DEFAULT_MODEL.

(** Sample inputs. *)
Definition sample_chunk : Document := mkDocument (lit "chunk one") [].

Definition sample_page : Document := mkDocument (lit "ab") [].

Definition sample_response : pystr := lit "<think> plan </think> answer".

Definition sample_pdf : UploadedFile := mkUploadedFile (lit "a.pdf") (blit "%PDF-1.4").

Definition sample_txt : UploadedFile := mkUploadedFile (lit "b.txt") (blit "hello").

Definition sample_docx : UploadedFile := mkUploadedFile (lit "c.docx") (blit "PK").

(** A session in which retrieval and the model answer. *)
Definition online : Externals := scripted [sample_chunk] sample_response [sample_page].

(** A session whose index holds nothing relevant. *)
Definition no_match : Externals := scripted [] sample_response [sample_page].

(** A session in which [b.txt] has been ingested already. *)
Definition returning : World := set_processed_documents [lit "b.txt"] fresh.

(** A session in which documents load but the index cannot be built. *)
Definition index_down : Externals := {|
  search_documents := fun _ _ _ => Return [];
  create_vector_store := fun _ => unavailable;
  context_separator := nl ++ nl;
  agent_run := fun _ _ => Return sample_response;
  pdf_load := fun _ => Return [sample_page];
  split_documents := fun docs => docs;
  library_text := fun _ => lit "error"
|}.

(** A page whose text is a lone surrogate, and a session in which every
    PDF loads as that page. *)
Definition surrogate_page : Document := mkDocument [0xD800] [].

Definition garbled : Externals := scripted [] sample_response [surrogate_page].

(** The cache path of [sample_pdf] under the default cache directory. *)
Definition sample_path : pystr := lit ".cache/c1fc2eb9eeedb75b1fdd07188d35d34f.json".

(** A session whose cache holds the chunks of [sample_pdf], and one
    whose cache file for it cannot be read. *)
Definition cached : World :=
  set_cache_files (<[sample_path := Some [sample_chunk]]> ∅) fresh.

Definition damaged : World :=
  set_cache_files (<[sample_path := None]> ∅) fresh.

(** The default session with RAG mode switched off. *)
Definition plain_settings : Settings :=
  mkSettings false settings.DEFAULT_SIMILARITY_THRESHOLD settings.DEFAULT_MODEL.

(* ===================================================================== *)
(** * Part II.  Properties                                                 *)
(* ===================================================================== *)

(** ** Strings and the marker pattern *)

Lemma strip_prefix_app (p s rest : pystr) :
  strip_prefix p s = Some rest -> s = p ++ rest.
Proof.
  revert s; induction p as [|a p IH]; intros [|b s]; simpl; try congruence.
  destruct (N.eqb_spec a b) as [->|]; [|congruence].
  intros H; rewrite (IH _ H); reflexivity.
Qed.

Lemma find_unfold (needle s : pystr) :
  find needle s =
  match strip_prefix needle s with
  | Some rest => Some ([], rest)
  | None =>
    match s with
    | [] => None
    | c :: s' =>
      match find needle s' with
      | Some (pre, post) => Some (c :: pre, post)
      | None => None
      end
    end
  end.
Proof. destruct s; reflexivity. Qed.

Lemma find_app (needle s pre post : pystr) :
  find needle s = Some (pre, post) -> s = pre ++ needle ++ post.
Proof.
  revert pre; induction s as [|c s IH]; intros pre; rewrite find_unfold.
  - destruct (strip_prefix needle []) eqn:Hp; [|congruence].
    intros [= <- <-]; apply strip_prefix_app in Hp; exact Hp.
  - destruct (strip_prefix needle (c :: s)) eqn:Hp.
    + intros [= <- <-]; apply strip_prefix_app in Hp; exact Hp.
    + destruct (find needle s) as [[pre' post']|]; [|congruence].
      intros [= <- <-]; rewrite (IH pre' eq_refl); reflexivity.
Qed.

(** A match of the pattern cuts the subject into the text before, the
    opening marker, group 1, the closing marker and the text after. *)
Lemma re_search_app (s pre group1 post : pystr) :
  re_search s = Some (pre, group1, post) ->
  s = pre ++ think_open ++ group1 ++ think_close ++ post.
Proof.
  unfold re_search.
  destruct (find think_open s) as [[p a]|] eqn:Ho; [|congruence].
  destruct (find think_close a) as [[g q]|] eqn:Hc; [|congruence].
  intros [= <- <- <-].
  apply find_app in Ho; apply find_app in Hc; subst; reflexivity.
Qed.

Lemma re_search_shorter (s pre group1 post : pystr) :
  re_search s = Some (pre, group1, post) ->
  (length post < length s)%nat.
Proof.
  intros H; apply re_search_app in H; subst s.
  rewrite !length_app; simpl; lia.
Qed.

(** Any fuel of at least the length of the subject gives the same result. *)
Lemma re_sub_fuel_enough (n m : nat) (s : pystr) :
  (length s <= n)%nat -> (length s <= m)%nat ->
  re_sub_fuel n s = re_sub_fuel m s.
Proof.
  revert m s; induction n as [|n IH]; intros m s Hn Hm.
  - destruct s; [|simpl in Hn; lia]. destruct m; reflexivity.
  - destruct m as [|m].
    + destruct s; [reflexivity | simpl in Hm; lia].
    + simpl. destruct (re_search s) as [[[pre g] post]|] eqn:Hs; [|reflexivity].
      apply re_search_shorter in Hs.
      f_equal; apply IH; lia.
Qed.

(** The equation [re.sub] satisfies: remove the first match, go on in the
    text after it. *)
Lemma re_sub_unfold (s : pystr) :
  re_sub s =
  match re_search s with
  | None => s
  | Some (pre, _, post) => pre ++ re_sub post
  end.
Proof.
  unfold re_sub. destruct s as [|c s]; [reflexivity|].
  cbn [length re_sub_fuel].
  destruct (re_search (c :: s)) as [[[pre g] post]|] eqn:Hs; [|reflexivity].
  apply re_search_shorter in Hs; simpl in Hs.
  f_equal; apply re_sub_fuel_enough; lia.
Qed.

Lemma lstrip_spaces (s : pystr) :
  forallb is_space s = true -> lstrip s = [].
Proof.
  induction s as [|c s IH]; [reflexivity|]; simpl.
  destruct (is_space c); simpl; [exact IH | discriminate].
Qed.

Lemma strip_spaces (s : pystr) :
  forallb is_space s = true -> strip s = [].
Proof.
  intros H; unfold strip, rstrip; rewrite (lstrip_spaces s H); reflexivity.
Qed.

Lemma strip_prefix_complete (p rest : pystr) :
  strip_prefix p (p ++ rest) = Some rest.
Proof.
  induction p as [|a p IH]; simpl; [destruct rest; reflexivity|].
  rewrite N.eqb_refl; exact IH.
Qed.

(** [find] returns the first occurrence, and finds one whenever there is
    one. *)
Lemma find_first (needle pre post : pystr) :
  exists p q, find needle (pre ++ needle ++ post) = Some (p, q)
              /\ (length p <= length pre)%nat.
Proof.
  induction pre as [|c pre (p & q & IH & Hlen)]; rewrite find_unfold.
  - simpl. rewrite strip_prefix_complete. exists [], post. split; [reflexivity | simpl; lia].
  - destruct (strip_prefix needle ((c :: pre) ++ needle ++ post)) as [rest|].
    + exists [], rest. split; [reflexivity | simpl; lia].
    + simpl. rewrite IH. exists (c :: p), q. split; [reflexivity | simpl; lia].
Qed.

(** A response has no match of the pattern exactly when it contains no
    opening marker followed, anywhere later, by a closing marker. *)
Lemma re_search_None_iff (s : pystr) :
  re_search s = None <->
  ~ exists a g b, s = a ++ think_open ++ g ++ think_close ++ b.
Proof.
  split.
  - intros Hnone (a & g & b & ->).
    unfold re_search in Hnone.
    destruct (find_first think_open a (g ++ think_close ++ b))
      as (p & q & Hfind & Hlen).
    rewrite Hfind in Hnone.
    pose proof (find_app _ _ _ _ Hfind) as Heq.
    assert (Hq : exists x, q = x ++ think_close ++ b).
    { replace (a ++ think_open ++ g ++ think_close ++ b)
        with ((a ++ think_open ++ g) ++ think_close ++ b) in Heq
        by (rewrite <- !app_assoc; reflexivity).
      replace (p ++ think_open ++ q) with ((p ++ think_open) ++ q) in Heq
        by (rewrite <- app_assoc; reflexivity).
      apply (f_equal (drop (length (p ++ think_open)))) in Heq.
      rewrite drop_app_le in Heq by (rewrite !length_app; lia).
      rewrite drop_app_length in Heq.
      eexists; symmetry; exact Heq. }
    destruct Hq as [x ->].
    destruct (find_first think_close x b) as (p' & q' & Hfind' & _).
    rewrite Hfind' in Hnone; discriminate.
  - intros Hno. destruct (re_search s) as [[[pre g] post]|] eqn:Hs; [|reflexivity].
    exfalso; apply Hno. exists pre, g, post. apply re_search_app; exact Hs.
Qed.

(** The match [re_search] returns is the one the regular-expression
    engine reports: no match starts further left, and among the matches
    starting there the lazy group is the shortest. *)
Lemma re_search_leftmost_lazy (s pre group1 post a g b : pystr) :
  re_search s = Some (pre, group1, post) ->
  s = a ++ think_open ++ g ++ think_close ++ b ->
  (length pre <= length a)%nat
  /\ (length pre = length a -> (length group1 <= length g)%nat).
Proof.
  unfold re_search. intros Hs ->.
  destruct (find_first think_open a (g ++ think_close ++ b))
    as (p & q & Hopen & Hlen).
  rewrite Hopen in Hs.
  destruct (find think_close q) as [[g1 q1]|] eqn:Hclose; [|discriminate].
  injection Hs as -> -> ->.
  split; [exact Hlen|]. intros Hsame.
  apply find_app in Hopen.
  assert (Hpre : pre = a).
  { apply (f_equal (take (length pre))) in Hopen.
    rewrite take_app_length in Hopen.
    rewrite Hsame, take_app_length in Hopen. congruence. }
  subst a. apply app_inv_head in Hopen. apply app_inv_head in Hopen. subst q.
  destruct (find_first think_close g b) as (p' & q' & Hc & Hlen').
  rewrite Hc in Hclose. injection Hclose as -> ->. exact Hlen'.
Qed.

(** ** Response post-processing and the conversation log *)

Section AppProperties.
Context {E : Externals}.

(** [_process_response] never raises, touches nothing but the history,
    and appends the answer, then the reasoning, then the chunk texts. *)
Lemma process_response_spec (response : pystr) (docs : option (list Document))
  (w : World) :
  App._process_response response docs w =
  (set_history (history w
                ++ [mkMessage assistant (Text (App.response_wo_think response))]
                ++ think_messages response ++ doc_messages docs) w,
   Return tt).
Proof.
  unfold App._process_response, think_messages, doc_messages, bind,
    App.add_message, modify, ret.
  destruct w as [h p c cw v u]; cbn.
  destruct (App.think_content response) as [tc|]; [destruct (truthy tc)|];
    (destruct docs as [ds|]; [destruct (truthy ds)|]); cbn;
    rewrite <- ?app_assoc, ?app_nil_r; reflexivity.
Qed.

Lemma error_handler_return {A} (b : bool) (none : A) (m : M A) (w w' : World) (a : A) :
  m w = (w', Return a) -> error_handler b none m w = (w', Return a).
Proof. unfold error_handler, try_except; intros ->; reflexivity. Qed.

(** A caught exception may add to the display, nothing else. *)
Lemma error_handler_raise {A} (b : bool) (none : A) (m : M A) (w w' : World) (e : exn) :
  m w = (w', Raise e) ->
  error_handler b none m w =
  (if b then set_ui (ui w' ++ [st_error (str_exn e)]) w' else w', Return none).
Proof.
  unfold error_handler, try_except; intros ->.
  destruct b; reflexivity.
Qed.

(** The RAG query as written either raises before anything is logged, or
    ends in [_process_response]. *)
Lemma rag_query_body_cases (cfg : Settings) (prompt : pystr) (w : World) :
  App._process_rag_query_body cfg prompt w =
  match search_documents (vector_store w) prompt (similarity_threshold cfg) with
  | Raise e => (w, Raise e)
  | Return docs =>
    match agent_run (model_version cfg)
            (RAGAgent.full_prompt prompt (Some (App.get_context docs))) with
    | Raise e => (w, Raise e)
    | Return response => App._process_response response (Some docs) w
    end
  end.
Proof.
  unfold App._process_rag_query_body, RAGAgent.run, bind, call.
  destruct (search_documents _ _ _) as [docs|e]; [|reflexivity].
  destruct (agent_run _ _) as [response|e]; reflexivity.
Qed.

Lemma simple_query_body_cases (cfg : Settings) (prompt : pystr) (w : World) :
  App._process_simple_query_body cfg prompt w =
  match agent_run (model_version cfg) (RAGAgent.full_prompt prompt None) with
  | Raise e => (w, Raise e)
  | Return response => App._process_response response None w
  end.
Proof.
  unfold App._process_simple_query_body, RAGAgent.run, bind, call.
  destruct (agent_run _ _) as [response|e]; reflexivity.
Qed.

(** A query that raises has logged nothing. *)
Lemma query_body_raise_history (cfg : Settings) (prompt : pystr) (w w' : World)
  (e : exn) :
  App.query_body cfg prompt w = (w', Raise e) -> w' = w.
Proof.
  unfold App.query_body.
  destruct (rag_enabled cfg);
    rewrite ?rag_query_body_cases, ?simple_query_body_cases.
  - destruct (search_documents _ _ _) as [docs|e1]; [|congruence].
    destruct (agent_run _ _) as [response|e2]; [|congruence].
    rewrite process_response_spec; congruence.
  - destruct (agent_run _ _) as [response|e2]; [|congruence].
    rewrite process_response_spec; congruence.
Qed.

(** [process_user_input] is the user message followed by the query under
    its handler. *)
Lemma process_user_input_unfold (cfg : Settings) (prompt : pystr) (w : World) :
  App.process_user_input cfg prompt w =
  error_handler true tt (App.query_body cfg prompt)
    (set_history (history w ++ [mkMessage user (Text prompt)]) w).
Proof.
  unfold App.process_user_input, App.process_user_input_body, log_execution,
    App.query_body, App._process_rag_query, App._process_simple_query,
    log_execution, bind, App.add_message, modify.
  cbn beta iota.
  set (w1 := set_history _ w).
  unfold error_handler at 1, try_except at 1.
  destruct (rag_enabled cfg); cbn iota.
  - destruct (App._process_rag_query_body cfg prompt w1) as [w2 [[]|e]] eqn:Hq;
      subst w1.
    + rewrite (error_handler_return _ _ _ _ _ _ Hq); reflexivity.
    + rewrite (error_handler_raise _ _ _ _ _ _ Hq); reflexivity.
  - destruct (App._process_simple_query_body cfg prompt w1) as [w2 [[]|e]] eqn:Hq;
      subst w1.
    + rewrite (error_handler_return _ _ _ _ _ _ Hq); reflexivity.
    + rewrite (error_handler_raise _ _ _ _ _ _ Hq); reflexivity.
Qed.

(** C6.  After one completed RAG turn the log has gained, in this order:
    the user message, the assistant message, then the [assistant_think]
    message when the response carried a non-empty reasoning segment, then
    the [retrieved_doc] message, holding the chunk texts in retrieval
    order, when chunks were retrieved; [assistant_think] followed by
    [retrieved_doc] close the turn exactly when both a reasoning segment
    and retrieved chunks existed. *)
Theorem rag_turn_log_order (cfg : Settings) (prompt : pystr) (w : World)
  (docs : list Document) (response : pystr) :
  rag_enabled cfg = true ->
  search_documents (vector_store w) prompt (similarity_threshold cfg) = Return docs ->
  agent_run (model_version cfg)
    (RAGAgent.full_prompt prompt (Some (App.get_context docs))) = Return response ->
  let w' := fst (App.process_user_input cfg prompt w) in
  history w' =
    history w
    ++ [mkMessage user (Text prompt);
        mkMessage assistant (Text (App.response_wo_think response))]
    ++ think_messages response ++ doc_messages (Some docs)
  /\ (((exists tc, App.think_content response = Some tc /\ tc <> []) /\ docs <> [])
      <->
      exists tc,
        history w' =
          history w
          ++ [mkMessage user (Text prompt);
              mkMessage assistant (Text (App.response_wo_think response));
              mkMessage assistant_think (Text tc);
              mkMessage retrieved_doc (Texts (List.map page_content docs))]).
Proof.
  intros Hrag Hsearch Hagent w'.
  assert (Hlog : history w' =
    history w
    ++ [mkMessage user (Text prompt);
        mkMessage assistant (Text (App.response_wo_think response))]
    ++ think_messages response ++ doc_messages (Some docs)).
  { subst w'. rewrite process_user_input_unfold.
    erewrite error_handler_return.
    2:{ unfold App.query_body. rewrite Hrag, rag_query_body_cases.
        cbn [vector_store set_history]. rewrite Hsearch, Hagent.
        apply process_response_spec. }
    cbn. rewrite <- app_assoc. reflexivity. }
  split; [exact Hlog|].
  rewrite Hlog. unfold think_messages, doc_messages. split.
  - intros [(tc & -> & Htc) Hdocs]. exists tc.
    destruct tc; [congruence|]. destruct docs; [congruence|]. reflexivity.
  - intros [tc Heq]. apply app_inv_head in Heq.
    destruct (App.think_content response) as [tc'|];
      [destruct tc' as [|c tc']|]; destruct docs as [|d docs]; cbn in Heq;
      try discriminate.
    split; [exists (c :: tc'); split; congruence | congruence].
Qed.

(** C1, as the code has it.  When the query of a turn raises (retrieval
    or the model invocation fails), the log is the pre-turn log followed
    by the user message of that turn, and by nothing else: no assistant,
    reasoning or retrieved-chunk message is appended. *)
Theorem failed_turn_keeps_user_message (cfg : Settings) (prompt : pystr)
  (w w1 : World) (e : exn) :
  App.query_body cfg prompt
    (set_history (history w ++ [mkMessage user (Text prompt)]) w) = (w1, Raise e) ->
  history (fst (App.process_user_input cfg prompt w))
  = history w ++ [mkMessage user (Text prompt)].
Proof.
  intros Hq. rewrite process_user_input_unfold.
  rewrite (error_handler_raise _ _ _ _ _ _ Hq).
  apply query_body_raise_history in Hq; subst w1. reflexivity.
Qed.

(** C10.  When the first marker pair of a response encloses only
    whitespace, the marked segment is still cut out of the visible answer
    (as is every later match), and no [assistant_think] message is
    appended: the log gains the assistant message and, when chunks were
    retrieved, the [retrieved_doc] message. *)
Theorem blank_reasoning_is_dropped (response pre group1 post : pystr)
  (docs : option (list Document)) (w : World) :
  re_search response = Some (pre, group1, post) ->
  forallb is_space group1 = true ->
  App.response_wo_think response = strip (pre ++ re_sub post)
  /\ history (fst (App._process_response response docs w))
     = history w
       ++ [mkMessage assistant (Text (strip (pre ++ re_sub post)))]
       ++ doc_messages docs
  /\ Forall (fun m => role m <> assistant_think)
       (drop (length (history w))
             (history (fst (App._process_response response docs w)))).
Proof.
  intros Hs Hblank.
  assert (Hans : App.response_wo_think response = strip (pre ++ re_sub post)).
  { unfold App.response_wo_think. rewrite re_sub_unfold, Hs. reflexivity. }
  assert (Hthink : think_messages response = []).
  { unfold think_messages, App.think_content. rewrite Hs.
    rewrite (strip_spaces _ Hblank). reflexivity. }
  rewrite process_response_spec, Hthink, Hans. cbn [fst history set_history].
  repeat split.
  rewrite drop_app_length. cbn [app].
  constructor; [discriminate|].
  destruct docs as [ds|]; cbn; [destruct (truthy ds)|]; repeat constructor.
  discriminate.
Qed.

(** C9, as the code has it.  A response without a marker pair yields no
    reasoning segment, and the visible answer is the raw response itself,
    leading and trailing whitespace included. *)
Theorem unmarked_response_is_kept (response : pystr)
  (docs : option (list Document)) (w : World) :
  (~ exists a g b, response = a ++ think_open ++ g ++ think_close ++ b) ->
  App.think_content response = None
  /\ App.response_wo_think response = response
  /\ history (fst (App._process_response response docs w))
     = history w ++ [mkMessage assistant (Text response)] ++ doc_messages docs.
Proof.
  intros Hno. apply re_search_None_iff in Hno.
  assert (Hans : App.response_wo_think response = response)
    by (unfold App.response_wo_think; rewrite Hno; reflexivity).
  assert (Hthink : App.think_content response = None)
    by (unfold App.think_content; rewrite Hno; reflexivity).
  repeat split; [exact Hthink | exact Hans |].
  rewrite process_response_spec. unfold think_messages.
  rewrite Hthink, Hans. reflexivity.
Qed.

(** C2, as the code has it.  For a response with two or more marker
    pairs, the reasoning is the trimmed text of the first pair only, and
    the visible answer has every pair cut out, the second and later ones
    as well as the first. *)
Theorem every_marker_pair_is_removed (response pre group1 post pre2 group2 post2 : pystr) :
  re_search response = Some (pre, group1, post) ->
  re_search post = Some (pre2, group2, post2) ->
  App.think_content response = Some (strip group1)
  /\ App.response_wo_think response = strip (pre ++ pre2 ++ re_sub post2).
Proof.
  intros H1 H2. unfold App.think_content, App.response_wo_think.
  rewrite re_sub_unfold, H1, re_sub_unfold, H2. split; reflexivity.
Qed.

(** C4, as the code has it.  With an empty retrieval result the assembled
    context is the empty string and the prompt handed to the model is the
    plain-mode text of [RAGAgent.run],
    [【用户问题】\n{prompt}\n\n请提供准确、有帮助的回答。如果用户询问天气，请使用query_weather工具。],
    not the RAG-mode text with an empty context field: the turn is the
    model's answer to that prompt, post-processed with no chunks. *)
Theorem empty_retrieval_uses_plain_prompt (cfg : Settings) (prompt : pystr)
  (w : World) :
  search_documents (vector_store w) prompt (similarity_threshold cfg) = Return [] ->
  App.get_context [] = []
  /\ RAGAgent.full_prompt prompt (Some (App.get_context []))
     = RAGAgent.plain_template prompt
  /\ RAGAgent.plain_template prompt <> RAGAgent.rag_template prompt []
  /\ App._process_rag_query_body cfg prompt w
     = match agent_run (model_version cfg) (RAGAgent.plain_template prompt) with
       | Return response => App._process_response response (Some []) w
       | Raise e => (w, Raise e)
       end.
Proof.
  intros Hsearch. repeat split.
  - intros Heq. apply (f_equal (take 2)) in Heq. vm_compute in Heq. discriminate.
  - rewrite rag_query_body_cases, Hsearch. reflexivity.
Qed.

End AppProperties.

(** ** The cache key *)

Lemma le_bytes_length (k : nat) (n : Z) : length (MD5.le_bytes k n) = k.
Proof. revert n; induction k as [|k IH]; intros n; simpl; [|rewrite IH]; reflexivity. Qed.

Lemma digest_length (msg : pybytes) : length (MD5.digest msg) = 16%nat.
Proof.
  unfold MD5.digest.
  destruct (fold_left MD5.block _ MD5.init) as [[[a b] c] d].
  rewrite !length_app, !le_bytes_length. reflexivity.
Qed.

(** The key always has the 32 digits of an MD5 digest. *)
Lemma hexdigest_length (msg : pybytes) : length (MD5.hexdigest msg) = 32%nat.
Proof.
  unfold MD5.hexdigest.
  assert (H : forall l : list Z,
             length (List.flat_map
                       (fun b => [MD5.hex_digit (Z.shiftr b 4);
                                  MD5.hex_digit (Z.land b 0xF)]) l)
             = (2 * length l)%nat).
  { induction l as [|x l IH]; simpl; [reflexivity | rewrite IH; lia]. }
  rewrite H, digest_length. reflexivity.
Qed.

(** C5, as the code has it.  The key is a function of the pair: identical
    (bytes, name) pairs yield the identical key, a 32-digit digest.  It
    depends on the pair only through the concatenation of the bytes with
    the encoded name: two pairs with the same concatenation share their
    key, whether or not they differ in bytes and in name. *)
Theorem cache_key_of_concatenation (self : DocumentProcessor.t)
  (content1 content2 : pybytes) (name1 name2 : pystr)
  (encoded1 encoded2 : pybytes) :
  encode name1 = Some encoded1 ->
  encode name2 = Some encoded2 ->
  ((content1, name1) = (content2, name2) ->
   DocumentProcessor._get_cache_path self content1 name1
   = DocumentProcessor._get_cache_path self content2 name2)
  /\ (content1 ++ encoded1 = content2 ++ encoded2 ->
      DocumentProcessor._get_cache_path self content1 name1
      = DocumentProcessor._get_cache_path self content2 name2)
  /\ exists key,
      DocumentProcessor.cache_key content1 name1 = Return key
      /\ length key = 32%nat
      /\ DocumentProcessor._get_cache_path self content1 name1
         = Return (DocumentProcessor.cache_dir self ++ lit "/" ++ key ++ lit ".json").
Proof.
  intros H1 H2. split; [|split].
  - intros [= -> ->]. reflexivity.
  - intros Hcat. unfold DocumentProcessor._get_cache_path, DocumentProcessor.cache_key.
    rewrite H1, H2, Hcat. reflexivity.
  - exists (MD5.hexdigest (content1 ++ encoded1)).
    unfold DocumentProcessor._get_cache_path, DocumentProcessor.cache_key.
    rewrite H1. split; [reflexivity|]. split; [apply hexdigest_length | reflexivity].
Qed.

(** ** Ingestion *)

(** Saving never raises.  Where the cache takes the write, the file
    holds what [written] says; elsewhere nothing changes. *)
Lemma save_to_cache_unfold (path : pystr) (docs : list Document) (w : World) :
  DocumentProcessor._save_to_cache path docs w
  = (if cache_writable w
     then set_cache_files (<[path := written docs]> (cache_files w)) w
     else w, Return tt).
Proof.
  unfold DocumentProcessor._save_to_cache, try_except, bind,
    DocumentProcessor.open_for_writing, DocumentProcessor.json_dump, written.
  destruct (cache_writable w) eqn:Hw; [|reflexivity].
  destruct (DocumentProcessor.unencodable docs); cbn; [reflexivity|].
  rewrite insert_insert_eq. reflexivity.
Qed.

Section IngestionProperties.
Context {E : Externals}.

(** C3, as the code has it.  On a cache miss, an uploaded PDF is loaded
    and split by the splitter, and the caller receives the chunk texts
    joined by blank lines.  When the chunk sequence is non-empty and the
    cache file can be opened for writing, the sequence is written to the
    cache under the document's key: the file then holds the chunks when
    every string of them can be encoded as UTF-8, and is left cut short
    and unreadable when one cannot.  Otherwise the cache is as it was.
    An uploaded plain-text file is decoded and returned whole: it is
    neither split nor written to the cache. *)
Theorem ingest_on_cache_miss (self : DocumentProcessor.t) :
  (forall (f : UploadedFile) (w : World) (path : pystr) (pages : list Document),
     endswith (lower (name f)) (lit ".pdf") = true ->
     DocumentProcessor._get_cache_path self (getvalue f) (name f) = Return path ->
     DocumentProcessor._load_from_cache path w = (w, Return None) ->
     pdf_load (getvalue f) = Return pages ->
     DocumentProcessor.process_file self (Uploaded f) None w
     = (if truthy (split_documents pages) && cache_writable w
        then set_cache_files
               (<[path := written (split_documents pages)]> (cache_files w)) w
        else w,
        Return (PyStr (join (nl ++ nl)
                         (List.map page_content (split_documents pages))))))
  /\ (forall (f : UploadedFile) (w : World) (text : pystr),
        endswith (lower (name f)) (lit ".pdf") = false ->
        endswith (lower (name f)) (lit ".txt") = true ->
        utf8_decode (getvalue f) = Some text ->
        DocumentProcessor.process_file self (Uploaded f) None w
        = (w, Return (PyStr text))).
Proof.
  split.
  - intros f w path pages Hpdf Hpath Hmiss Hload.
    unfold DocumentProcessor.process_file, log_execution.
    apply error_handler_return.
    unfold DocumentProcessor.process_file_body, try_except, bind, ret.
    cbn beta iota. rewrite Hpdf.
    assert (Hp : DocumentProcessor._process_pdf self (getvalue f) (name f) w
                 = (if truthy (split_documents pages) && cache_writable w
                    then set_cache_files
                           (<[path := written (split_documents pages)]> (cache_files w)) w
                    else w, Return (Some (split_documents pages)))).
    { unfold DocumentProcessor._process_pdf, log_execution.
      apply error_handler_return.
      unfold DocumentProcessor._process_pdf_body, bind, call, try_except, ret.
      rewrite Hpath, Hmiss, Hload.
      destruct (truthy (split_documents pages)); [|reflexivity].
      rewrite save_to_cache_unfold.
      destruct (cache_writable w); reflexivity. }
    rewrite Hp. reflexivity.
  - intros f w text Hpdf Htxt Hdec.
    unfold DocumentProcessor.process_file, log_execution.
    apply error_handler_return.
    unfold DocumentProcessor.process_file_body, try_except, bind, ret.
    cbn beta iota. rewrite Hpdf, Htxt, Hdec. reflexivity.
Qed.

(** The per-file step of the upload loop never lets an exception out. *)
Lemma process_uploaded_file_returns (dp : DocumentProcessor.t)
  (f : UploadedFile) (docs : list Document) (w : World) :
  exists w' docs', UIComponents.process_uploaded_file dp f docs w = (w', Return docs').
Proof.
  unfold UIComponents.process_uploaded_file.
  destruct (bool_decide _); [eexists _, _; reflexivity|].
  unfold try_except.
  match goal with |- context [let (_, _) := ?m w in _] => destruct (m w) as [w1 [d|e]] end;
    eexists _, _; reflexivity.
Qed.

Lemma process_uploaded_file_known (dp : DocumentProcessor.t) (f : UploadedFile)
  (docs : list Document) (w : World) :
  name f ∈ processed_documents w ->
  UIComponents.process_uploaded_file dp f docs w
  = (set_ui (ui w ++ [st_warning (lit "⚠️ 已存在: " ++ name f)]) w, Return docs).
Proof.
  intros Hin. unfold UIComponents.process_uploaded_file.
  rewrite (bool_decide_eq_true_2 _ Hin). reflexivity.
Qed.

(** C8.  A file whose name is already in the registry is answered with
    the "already present" warning and nothing else: no exception, no call
    of the document processor (the cache and the collected documents are
    as before), and the registry is unchanged. *)
Theorem known_name_is_skipped (dp : DocumentProcessor.t) (f : UploadedFile)
  (docs : list Document) (w : World) :
  name f ∈ processed_documents w ->
  UIComponents.process_uploaded_file dp f docs w
  = (set_ui (ui w ++ [st_warning (lit "⚠️ 已存在: " ++ name f)]) w, Return docs)
  /\ processed_documents (fst (UIComponents.process_uploaded_file dp f docs w))
     = processed_documents w
  /\ length (processed_documents (fst (UIComponents.process_uploaded_file dp f docs w)))
     = length (processed_documents w)
  /\ cache_files (fst (UIComponents.process_uploaded_file dp f docs w))
     = cache_files w.
Proof.
  intros Hin. rewrite (process_uploaded_file_known dp f docs w Hin).
  repeat split.
Qed.

(** A batch of known names leaves everything but the display as it was. *)
Lemma known_batch_is_skipped (dp : DocumentProcessor.t)
  (files : list UploadedFile) (docs : list Document) (w : World) :
  Forall (fun f => name f ∈ processed_documents w) files ->
  UIComponents.process_uploaded_files dp files docs w
  = (set_ui (ui w ++ List.map (fun f => st_warning (lit "⚠️ 已存在: " ++ name f)) files) w,
     Return docs).
Proof.
  revert w; induction files as [|f files IH]; intros w Hall.
  - cbn. rewrite app_nil_r. destruct w; reflexivity.
  - inversion Hall as [|? ? Hf Hrest]; subst.
    cbn [UIComponents.process_uploaded_files]. unfold bind.
    rewrite (process_uploaded_file_known dp f docs w Hf).
    rewrite IH by exact Hrest.
    cbn. rewrite <- app_assoc. reflexivity.
Qed.

(** The registry is touched by the loop only, never by [process_file]:
    every building block of the monad keeps it. *)
Lemma keeps_ret {A} (a : A) : keeps_registry (ret a).
Proof. intros w; reflexivity. Qed.

Lemma keeps_raise {A} (e : exn) : keeps_registry (@raise A e).
Proof. intros w; reflexivity. Qed.

Lemma keeps_call {A} (o : outcome A) : keeps_registry (call o).
Proof. intros w; reflexivity. Qed.

Lemma keeps_show (ev : UiEvent) : keeps_registry (show ev).
Proof. intros w; reflexivity. Qed.

Lemma keeps_bind {A B} (m : M A) (k : A -> M B) :
  keeps_registry m -> (forall a, keeps_registry (k a)) -> keeps_registry (bind m k).
Proof.
  intros Hm Hk w. unfold bind. specialize (Hm w).
  destruct (m w) as [w1 [a|e]]; cbn in *; [|exact Hm].
  rewrite (Hk a w1). exact Hm.
Qed.

Lemma keeps_try {A} (m : M A) (h : exn -> M A) :
  keeps_registry m -> (forall e, keeps_registry (h e)) -> keeps_registry (try_except m h).
Proof.
  intros Hm Hh w. unfold try_except. specialize (Hm w).
  destruct (m w) as [w1 [a|e]]; cbn in *; [exact Hm|].
  rewrite (Hh e w1). exact Hm.
Qed.

Lemma keeps_load (path : pystr) : keeps_registry (DocumentProcessor._load_from_cache path).
Proof. intros w; reflexivity. Qed.

Lemma keeps_save (path : pystr) (docs : list Document) :
  keeps_registry (DocumentProcessor._save_to_cache path docs).
Proof.
  intros w. rewrite save_to_cache_unfold.
  destruct (cache_writable w); reflexivity.
Qed.

Lemma keeps_error_handler {A} (b : bool) (none : A) (m : M A) :
  keeps_registry m -> keeps_registry (error_handler b none m).
Proof.
  intros Hm. unfold error_handler.
  apply keeps_try; [exact Hm|]. intros e.
  apply keeps_bind; [|intros; apply keeps_ret].
  destruct b; [apply keeps_show | apply keeps_ret].
Qed.

Lemma keeps_process_pdf (dp : DocumentProcessor.t) (content : pybytes) (n : pystr) :
  keeps_registry (DocumentProcessor._process_pdf dp content n).
Proof.
  unfold DocumentProcessor._process_pdf, log_execution.
  apply keeps_error_handler.
  unfold DocumentProcessor._process_pdf_body.
  apply keeps_bind; [apply keeps_call|]. intros path.
  apply keeps_bind; [apply keeps_load|]. intros [docs|]; [apply keeps_ret|].
  apply keeps_try; [|intros; apply keeps_raise].
  apply keeps_bind; [apply keeps_call|]. intros pages.
  apply keeps_bind; [|intros; apply keeps_ret].
  destruct (truthy _); [apply keeps_save | apply keeps_ret].
Qed.

Lemma process_file_registry (dp : DocumentProcessor.t) (arg : file_arg)
  (file_name : option pystr) (w : World) :
  processed_documents (fst (DocumentProcessor.process_file dp arg file_name w))
  = processed_documents w.
Proof.
  revert w. change (keeps_registry (DocumentProcessor.process_file dp arg file_name)).
  unfold DocumentProcessor.process_file, log_execution.
  apply keeps_error_handler.
  unfold DocumentProcessor.process_file_body.
  apply keeps_try; [|intros; apply keeps_raise].
  apply keeps_bind.
  - destruct arg as [f|b|]; [apply keeps_ret | | apply keeps_raise].
    destruct file_name as [n|]; [|apply keeps_raise].
    destruct (truthy n); [apply keeps_ret | apply keeps_raise].
  - intros [content n].
    destruct (endswith (lower n) (lit ".pdf")).
    + apply keeps_bind; [apply keeps_process_pdf|]. intros [ds|];
        destruct arg; first [apply keeps_ret | apply keeps_raise].
    + destruct (endswith (lower n) (lit ".txt")); [|apply keeps_ret].
      destruct (utf8_decode content); [apply keeps_ret | apply keeps_raise].
Qed.

Lemma process_uploaded_files_app (dp : DocumentProcessor.t)
  (pre post : list UploadedFile) (docs : list Document) (w : World) :
  UIComponents.process_uploaded_files dp (pre ++ post) docs w
  = (docs' <- UIComponents.process_uploaded_files dp pre docs ;;
     UIComponents.process_uploaded_files dp post docs') w.
Proof.
  revert docs w; induction pre as [|f pre IH]; intros docs w; [reflexivity|].
  cbn [app UIComponents.process_uploaded_files]. unfold bind.
  destruct (UIComponents.process_uploaded_file dp f docs w) as [w1 [d1|e]];
    [|reflexivity].
  rewrite IH. reflexivity.
Qed.

(** The loop runs to its end on every batch. *)
Lemma process_uploaded_files_returns (dp : DocumentProcessor.t)
  (files : list UploadedFile) (docs : list Document) (w : World) :
  exists w' docs',
    UIComponents.process_uploaded_files dp files docs w = (w', Return docs').
Proof.
  revert docs w; induction files as [|f files IH]; intros docs w.
  - eexists _, _; reflexivity.
  - cbn [UIComponents.process_uploaded_files]. unfold bind.
    destruct (process_uploaded_file_returns dp f docs w) as (w1 & d1 & ->).
    apply IH.
Qed.

(** A file that fails leaves the registry and the collected documents as
    they were and is reported by name. *)
Lemma process_uploaded_file_failure (dp : DocumentProcessor.t)
  (f : UploadedFile) (docs : list Document) (w : World) :
  name f ∉ processed_documents w ->
  file_fails dp f w = true ->
  exists w1 msg,
    UIComponents.process_uploaded_file dp f docs w
    = (set_ui (ui w1 ++ [st_error (lit "❌ 处理失败: " ++ name f ++ lit " - " ++ msg)]) w1,
       Return docs)
    /\ processed_documents w1 = processed_documents w.
Proof.
  intros Hnew Hfail.
  pose proof (process_file_registry dp (Uploaded f) None w) as Hreg.
  unfold file_fails in Hfail.
  unfold UIComponents.process_uploaded_file.
  rewrite (bool_decide_eq_false_2 _ Hnew).
  unfold try_except, bind at 1.
  destruct (DocumentProcessor.process_file dp (Uploaded f) None w)
    as [w1 [[s|l|]|e]]; try discriminate; cbn in Hreg.
  - exists w1, (str_exn ValidationError). split; [reflexivity | exact Hreg].
  - exists w1, (str_exn e). split; [reflexivity | exact Hreg].
Qed.


End IngestionProperties.

(** ** The properties at concrete inputs *)

(** With every service down, the turn fails and the user message stays
    in the log: the log is not the pre-turn log. *)
Lemma failed_turn_log_differs :
  snd (App.query_body (E := offline) default_settings (lit "hello")
         (set_history (history fresh ++ [mkMessage user (Text (lit "hello"))]) fresh))
  = Raise (ExternalError (lit "connection refused"))
  /\ history (fst (App.process_user_input (E := offline) default_settings
                     (lit "hello") fresh))
     = [mkMessage user (Text (lit "hello"))]
  /\ history (fst (App.process_user_input (E := offline) default_settings
                     (lit "hello") fresh))
     <> history fresh.
Proof. vm_compute. repeat split. discriminate. Qed.

Lemma failed_turn_keeps_user_message_witness :
  history (fst (App.process_user_input (E := offline) default_settings
                  (lit "hello") fresh))
  = history fresh ++ [mkMessage user (Text (lit "hello"))].
Proof.
  apply (failed_turn_keeps_user_message (E := offline) default_settings
           (lit "hello") fresh
           (set_history (history fresh ++ [mkMessage user (Text (lit "hello"))]) fresh)
           (ExternalError (lit "connection refused"))).
  vm_compute. reflexivity.
Defined.

(** Two marker pairs: the second one is cut out of the answer as well. *)
Lemma second_marker_pair_is_removed :
  re_search (lit "<think>a</think>x<think>b</think>y")
  = Some ([], lit "a", lit "x<think>b</think>y")
  /\ App.think_content (lit "<think>a</think>x<think>b</think>y") = Some (lit "a")
  /\ App.response_wo_think (lit "<think>a</think>x<think>b</think>y") = lit "xy"
  /\ App.response_wo_think (lit "<think>a</think>x<think>b</think>y")
     <> strip ([] ++ lit "x<think>b</think>y").
Proof. vm_compute. repeat split. discriminate. Qed.

Lemma every_marker_pair_is_removed_witness :
  App.think_content (lit "<think>a</think>x<think>b</think>y") = Some (strip (lit "a"))
  /\ App.response_wo_think (lit "<think>a</think>x<think>b</think>y")
     = strip ([] ++ lit "x" ++ re_sub (lit "y")).
Proof.
  apply (every_marker_pair_is_removed (lit "<think>a</think>x<think>b</think>y")
           [] (lit "a") (lit "x<think>b</think>y") (lit "x") (lit "b") (lit "y"));
    vm_compute; reflexivity.
Defined.

(** Without markers the answer keeps its surrounding whitespace. *)
Lemma unmarked_response_is_not_trimmed :
  re_search (lit " hi ") = None
  /\ App.response_wo_think (lit " hi ") = lit " hi "
  /\ App.response_wo_think (lit " hi ") <> strip (lit " hi ").
Proof. vm_compute. repeat split. discriminate. Qed.

Lemma unmarked_response_is_kept_witness :
  App.think_content (lit " hi ") = None
  /\ App.response_wo_think (lit " hi ") = lit " hi "
  /\ history (fst (App._process_response (lit " hi ") None fresh))
     = history fresh ++ [mkMessage assistant (Text (lit " hi "))] ++ doc_messages None.
Proof.
  apply (unmarked_response_is_kept (lit " hi ") None fresh).
  apply re_search_None_iff. vm_compute. reflexivity.
Defined.

Lemma blank_reasoning_is_dropped_witness :
  App.response_wo_think (lit "<think> 　 </think> fine")
  = strip ([] ++ re_sub (lit " fine"))
  /\ history (fst (App._process_response (lit "<think> 　 </think> fine")
                     (Some [sample_chunk]) fresh))
     = history fresh
       ++ [mkMessage assistant (Text (strip ([] ++ re_sub (lit " fine"))))]
       ++ doc_messages (Some [sample_chunk])
  /\ Forall (fun m => role m <> assistant_think)
       (drop (length (history fresh))
          (history (fst (App._process_response (lit "<think> 　 </think> fine")
                           (Some [sample_chunk]) fresh)))).
Proof.
  apply (blank_reasoning_is_dropped (lit "<think> 　 </think> fine")
           [] (lit " 　 ") (lit " fine") (Some [sample_chunk]) fresh);
    vm_compute; reflexivity.
Defined.

(** The plain prompt of the code is not the English text. *)
Lemma plain_prompt_is_not_the_quoted_text :
  App.get_context (E := no_match) [] = []
  /\ RAGAgent.full_prompt (lit "hi") (Some (App.get_context (E := no_match) []))
     = lit "【用户问题】" ++ nl ++ lit "hi" ++ nl ++ nl
       ++ lit "请提供准确、有帮助的回答。如果用户询问天气，请使用query_weather工具。"
  /\ RAGAgent.full_prompt (lit "hi") (Some (App.get_context (E := no_match) []))
     <> lit "[User question]" ++ nl ++ lit "hi" ++ nl ++ nl
        ++ lit "Provide an accurate, helpful answer.".
Proof. vm_compute. repeat split. discriminate. Qed.

Lemma empty_retrieval_uses_plain_prompt_witness :
  RAGAgent.full_prompt (lit "hi") (Some (App.get_context (E := no_match) []))
  = RAGAgent.plain_template (lit "hi")
  /\ history (fst (App._process_rag_query_body (E := no_match) default_settings
                     (lit "hi") fresh))
     = [mkMessage assistant (Text (lit "answer"));
        mkMessage assistant_think (Text (lit "plan"))].
Proof.
  destruct (empty_retrieval_uses_plain_prompt (E := no_match) default_settings
              (lit "hi") fresh eq_refl) as (_ & Hprompt & _ & Hturn).
  split; [exact Hprompt|].
  rewrite Hturn. vm_compute. reflexivity.
Defined.

(** Two different pairs with the same concatenation: one cache file. *)
Lemma distinct_pairs_share_a_key :
  (blit "ab", lit "c") <> (blit "a", lit "bc")
  /\ DocumentProcessor._get_cache_path DocumentProcessor.default (blit "ab") (lit "c")
     = Return (lit ".cache/900150983cd24fb0d6963f7d28e17f72.json")
  /\ DocumentProcessor._get_cache_path DocumentProcessor.default (blit "a") (lit "bc")
     = Return (lit ".cache/900150983cd24fb0d6963f7d28e17f72.json").
Proof. vm_compute. repeat split. discriminate. Qed.

Lemma cache_key_of_concatenation_witness :
  DocumentProcessor._get_cache_path DocumentProcessor.default (blit "ab") (lit "c")
  = DocumentProcessor._get_cache_path DocumentProcessor.default (blit "a") (lit "bc").
Proof.
  destruct (cache_key_of_concatenation DocumentProcessor.default
              (blit "ab") (blit "a") (lit "c") (lit "bc") (blit "c") (blit "bc")
              eq_refl eq_refl) as (_ & Hcat & _).
  apply Hcat. reflexivity.
Defined.

(** A plain-text upload that misses the cache: the text comes back whole
    although the splitter would cut it into five chunks, and no cache file
    is written. *)
Lemma text_file_is_neither_split_nor_cached :
  DocumentProcessor._get_cache_path DocumentProcessor.default
    (getvalue sample_txt) (name sample_txt)
  = Return (lit ".cache/613eece5f3ace12d61fbe65205745da2.json")
  /\ DocumentProcessor._load_from_cache
       (lit ".cache/613eece5f3ace12d61fbe65205745da2.json") fresh
     = (fresh, Return None)
  /\ DocumentProcessor.process_file (E := online) DocumentProcessor.default
       (Uploaded sample_txt) None fresh
     = (fresh, Return (PyStr (lit "hello")))
  /\ cache_files
       (fst (DocumentProcessor.process_file (E := online) DocumentProcessor.default
               (Uploaded sample_txt) None fresh))
     !! lit ".cache/613eece5f3ace12d61fbe65205745da2.json" = None
  /\ length (split_documents (Externals := online) [mkDocument (lit "hello") []])
     = 5%nat.
Proof. vm_compute. repeat split. Qed.

Lemma ingest_on_cache_miss_witness :
  cache_files
    (fst (DocumentProcessor.process_file (E := online) DocumentProcessor.default
            (Uploaded sample_pdf) None fresh))
  !! lit ".cache/c1fc2eb9eeedb75b1fdd07188d35d34f.json"
  = Some (Some [mkDocument (lit "a") []; mkDocument (lit "b") []])
  /\ snd (DocumentProcessor.process_file (E := online) DocumentProcessor.default
            (Uploaded sample_pdf) None fresh)
     = Return (PyStr (lit "a" ++ nl ++ nl ++ lit "b"))
  /\ cache_files
       (fst (DocumentProcessor.process_file (E := garbled) DocumentProcessor.default
               (Uploaded sample_pdf) None fresh))
     !! lit ".cache/c1fc2eb9eeedb75b1fdd07188d35d34f.json"
     = Some None
  /\ DocumentProcessor.process_file (E := online) DocumentProcessor.default
       (Uploaded sample_txt) None fresh
     = (fresh, Return (PyStr (lit "hello"))).
Proof.
  destruct (ingest_on_cache_miss (E := online) DocumentProcessor.default)
    as [Hpdf Htxt].
  destruct (ingest_on_cache_miss (E := garbled) DocumentProcessor.default)
    as [Hbad _].
  assert (H1 : endswith (lower (name sample_pdf)) (lit ".pdf") = true)
    by (vm_compute; reflexivity).
  assert (H2 : DocumentProcessor._get_cache_path DocumentProcessor.default
                 (getvalue sample_pdf) (name sample_pdf)
               = Return (lit ".cache/c1fc2eb9eeedb75b1fdd07188d35d34f.json"))
    by (vm_compute; reflexivity).
  assert (H3 : DocumentProcessor._load_from_cache
                 (lit ".cache/c1fc2eb9eeedb75b1fdd07188d35d34f.json") fresh
               = (fresh, Return None))
    by (vm_compute; reflexivity).
  assert (H4 : pdf_load (Externals := online) (getvalue sample_pdf)
               = Return [sample_page])
    by reflexivity.
  assert (H4' : pdf_load (Externals := garbled) (getvalue sample_pdf)
                = Return [surrogate_page])
    by reflexivity.
  assert (H5 : endswith (lower (name sample_txt)) (lit ".pdf") = false)
    by (vm_compute; reflexivity).
  assert (H6 : endswith (lower (name sample_txt)) (lit ".txt") = true)
    by (vm_compute; reflexivity).
  assert (H7 : utf8_decode (getvalue sample_txt) = Some (lit "hello"))
    by (vm_compute; reflexivity).
  rewrite (Hpdf sample_pdf fresh _ _ H1 H2 H3 H4).
  rewrite (Hbad sample_pdf fresh _ _ H1 H2 H3 H4').
  rewrite (Htxt sample_txt fresh _ H5 H6 H7).
  vm_compute. repeat split.
Defined.

Lemma rag_turn_log_order_witness :
  history (fst (App.process_user_input (E := online) default_settings
                  (lit "q") fresh))
  = [mkMessage user (Text (lit "q"));
     mkMessage assistant (Text (lit "answer"));
     mkMessage assistant_think (Text (lit "plan"));
     mkMessage retrieved_doc (Texts [lit "chunk one"])].
Proof.
  destruct (rag_turn_log_order (E := online) default_settings (lit "q") fresh
              [sample_chunk] sample_response eq_refl eq_refl eq_refl)
    as [Hlog _].
  rewrite Hlog. vm_compute. reflexivity.
Defined.

Lemma known_name_is_skipped_witness :
  UIComponents.process_uploaded_file (E := online) DocumentProcessor.default
    sample_txt [] returning
  = (set_ui [st_warning (lit "⚠️ 已存在: b.txt")] returning, Return [])
  /\ length (processed_documents
               (fst (UIComponents.process_uploaded_file (E := online)
                       DocumentProcessor.default sample_txt [] returning)))
     = 1%nat.
Proof.
  assert (Hin : name sample_txt ∈ processed_documents returning)
    by (vm_compute; constructor).
  destruct (known_name_is_skipped (E := online) DocumentProcessor.default
              sample_txt [] returning Hin) as (Hstep & _ & Hlen & _).
  split; [rewrite Hstep; vm_compute; reflexivity | rewrite Hlen; reflexivity].
Defined.


(** ** Reference values *)

(** The digests of RFC 1321's test suite, and one that spans two blocks. *)
Example md5_empty : MD5.hexdigest (blit "") = lit "d41d8cd98f00b204e9800998ecf8427e".
Proof. vm_compute. reflexivity. Qed.

Example md5_abc : MD5.hexdigest (blit "abc") = lit "900150983cd24fb0d6963f7d28e17f72".
Proof. vm_compute. reflexivity. Qed.

Example md5_two_blocks :
  MD5.hexdigest (List.repeat "a"%byte 64) = lit "014842d480b571495a4a0363793f7367".
Proof. vm_compute. reflexivity. Qed.

(** Encoding and decoding agree on text outside ASCII. *)
Example utf8_round_trip :
  option_map (List.map Byte.to_N) (encode (lit "é【𝄞"))
  = Some [195; 169; 227; 128; 144; 240; 157; 132; 158]
  /\ lit "é【𝄞" = [233; 12304; 119070].
Proof. vm_compute. split; reflexivity. Qed.

(** The two responses of the specification's parsing example. *)
Example parse_marked :
  App.think_content (lit "<think>abc</think>answer") = Some (lit "abc")
  /\ App.response_wo_think (lit "<think>abc</think>answer") = lit "answer".
Proof. vm_compute. split; reflexivity. Qed.

Example parse_unmarked :
  App.think_content (lit "no markers here") = None
  /\ App.response_wo_think (lit "no markers here") = lit "no markers here".
Proof. vm_compute. split; reflexivity. Qed.

(** The lazy group stops at the first closing marker, and an unclosed
    opening marker matches nothing. *)
Example search_nested :
  re_search (lit "<think>a<think>b</think>c</think>d")
  = Some ([], lit "a<think>b", lit "c</think>d")
  /\ re_search (lit "<think><think>") = None.
Proof. vm_compute. split; reflexivity. Qed.

(* ===================================================================== *)
(** * Part III.  Further properties of the code                            *)
(* ===================================================================== *)

(** ** Preservation through the monad *)

Lemma preserves_ret {A} (P : World -> Prop) (a : A) : preserves P (ret a).
Proof. intros w H; exact H. Qed.

Lemma preserves_raise {A} (P : World -> Prop) (e : exn) : preserves P (@raise A e).
Proof. intros w H; exact H. Qed.

Lemma preserves_call {A} (P : World -> Prop) (o : outcome A) : preserves P (call o).
Proof. intros w H; exact H. Qed.

Lemma preserves_show (P : World -> Prop) (ev : UiEvent) :
  ignores_ui P -> preserves P (show ev).
Proof. intros HP w H. apply HP; exact H. Qed.

Lemma preserves_bind {A B} (P : World -> Prop) (m : M A) (k : A -> M B) :
  preserves P m -> (forall a, preserves P (k a)) -> preserves P (bind m k).
Proof.
  intros Hm Hk w H. unfold bind. specialize (Hm w H).
  destruct (m w) as [w1 [a|e]]; cbn in *; [|exact Hm].
  apply Hk; exact Hm.
Qed.

Lemma preserves_try {A} (P : World -> Prop) (m : M A) (h : exn -> M A) :
  preserves P m -> (forall e, preserves P (h e)) -> preserves P (try_except m h).
Proof.
  intros Hm Hh w H. unfold try_except. specialize (Hm w H).
  destruct (m w) as [w1 [a|e]]; cbn in *; [exact Hm|].
  apply Hh; exact Hm.
Qed.

Section Preservation.
Context {E : Externals}.

Lemma preserves_error_handler {A} (P : World -> Prop) (b : bool) (none : A) (m : M A) :
  ignores_ui P -> preserves P m -> preserves P (error_handler b none m).
Proof.
  intros HP Hm. unfold error_handler.
  apply preserves_try; [exact Hm|]. intros e.
  apply preserves_bind; [|intros; apply preserves_ret].
  destruct b; [apply preserves_show; exact HP | apply preserves_ret].
Qed.

(** What [process_file] keeps is what saving a non-empty chunk sequence
    keeps. *)
Lemma preserves_process_file (P : World -> Prop) (dp : DocumentProcessor.t)
  (arg : file_arg) (file_name : option pystr) :
  ignores_ui P ->
  (forall path docs, truthy docs = true ->
     preserves P (DocumentProcessor._save_to_cache path docs)) ->
  preserves P (DocumentProcessor.process_file dp arg file_name).
Proof.
  intros HP Hsave.
  assert (Hpdf : forall content n,
             preserves P (DocumentProcessor._process_pdf dp content n)).
  { intros content n. unfold DocumentProcessor._process_pdf, log_execution.
    apply preserves_error_handler; [exact HP|].
    unfold DocumentProcessor._process_pdf_body.
    apply preserves_bind; [apply preserves_call|]. intros path.
    apply preserves_bind; [intros w H; exact H|].
    intros [docs|]; [apply preserves_ret|].
    apply preserves_try; [|intros; apply preserves_raise].
    apply preserves_bind; [apply preserves_call|]. intros pages.
    apply preserves_bind; [|intros; apply preserves_ret].
    destruct (truthy _) eqn:Hchunks; [apply Hsave; exact Hchunks | apply preserves_ret]. }
  unfold DocumentProcessor.process_file, log_execution.
  apply preserves_error_handler; [exact HP|].
  unfold DocumentProcessor.process_file_body.
  apply preserves_try; [|intros; apply preserves_raise].
  apply preserves_bind.
  - destruct arg as [f|b|]; [apply preserves_ret | | apply preserves_raise].
    destruct file_name as [n|]; [|apply preserves_raise].
    destruct (truthy n); [apply preserves_ret | apply preserves_raise].
  - intros [content n].
    destruct (endswith (lower n) (lit ".pdf")).
    + apply preserves_bind; [apply Hpdf|]. intros [ds|];
        destruct arg; first [apply preserves_ret | apply preserves_raise].
    + destruct (endswith (lower n) (lit ".txt")); [|apply preserves_ret].
      destruct (utf8_decode content); [apply preserves_ret | apply preserves_raise].
Qed.

(** Saving a cache file changes the cache files and nothing else. *)
Lemma save_to_cache_frame (path : pystr) (docs : list Document) (w : World) :
  let w1 := fst (DocumentProcessor._save_to_cache path docs w) in
  history w1 = history w /\ processed_documents w1 = processed_documents w
  /\ vector_store w1 = vector_store w /\ cache_writable w1 = cache_writable w
  /\ ui w1 = ui w.
Proof.
  rewrite save_to_cache_unfold.
  destruct (cache_writable w) eqn:Hw; cbn; rewrite ?Hw; repeat split.
Qed.

End Preservation.

(** ** The chunk cache *)

Lemma le_bytes_range (k : nat) (n : Z) :
  Forall (fun b => (0 <= b < 256)%Z) (MD5.le_bytes k n).
Proof.
  revert n; induction k as [|k IH]; intros n; simpl; constructor; [|apply IH].
  change 255%Z with (Z.ones 8). rewrite Z.land_ones by lia.
  apply Z.mod_pos_bound. lia.
Qed.

Lemma digest_range (msg : pybytes) :
  Forall (fun b => (0 <= b < 256)%Z) (MD5.digest msg).
Proof.
  unfold MD5.digest.
  destruct (fold_left MD5.block _ MD5.init) as [[[a b] c] d].
  repeat (apply Forall_app; split); apply le_bytes_range.
Qed.

Lemma hex_digit_is_hex (d : Z) :
  (0 <= d < 16)%Z -> is_lower_hex (MD5.hex_digit d) = true.
Proof.
  intros Hd. unfold MD5.hex_digit, is_lower_hex.
  destruct (Z.ltb_spec d 10).
  - apply orb_true_intro; left. apply andb_true_intro; split; apply N.leb_le; lia.
  - apply orb_true_intro; right. apply andb_true_intro; split; apply N.leb_le; lia.
Qed.

(** The digest is written with the digits [0-9a-f] only. *)
Lemma hexdigest_is_hex (msg : pybytes) :
  Forall (fun c => is_lower_hex c = true) (MD5.hexdigest msg).
Proof.
  unfold MD5.hexdigest.
  pose proof (digest_range msg) as Hr.
  induction Hr as [|b l Hb _ IH]; [constructor|].
  cbn [flat_map app]. constructor; [|constructor; [|exact IH]].
  - apply hex_digit_is_hex. rewrite Z.shiftr_div_pow2 by lia.
    change (2 ^ 4)%Z with 16%Z. split; [apply Z.div_pos; lia|].
    apply Z.div_lt_upper_bound; lia.
  - apply hex_digit_is_hex. change 15%Z with (Z.ones 4).
    rewrite Z.land_ones by lia. apply Z.mod_pos_bound. lia.
Qed.

Section CacheProperties.
Context {E : Externals}.

(** X1.  The cache path of a document is [cache_dir], a slash, 32 digits
    out of [0-9a-f] and [.json], whatever the bytes and whatever the
    characters of the name; computing it fails exactly when the name
    cannot be encoded, with the encoding error of that name. *)
Theorem cache_path_shape (self : DocumentProcessor.t) (content : pybytes)
  (file_name : pystr) :
  (forall path,
     DocumentProcessor._get_cache_path self content file_name = Return path ->
     exists key,
       path = DocumentProcessor.cache_dir self ++ lit "/" ++ key ++ lit ".json"
       /\ length key = 32%nat
       /\ Forall (fun c => is_lower_hex c = true) key)
  /\ (forall e,
        DocumentProcessor._get_cache_path self content file_name = Raise e ->
        encode file_name = None /\ e = UnicodeEncodeError file_name)
  /\ (encode file_name = None ->
      DocumentProcessor._get_cache_path self content file_name
      = Raise (UnicodeEncodeError file_name)).
Proof.
  unfold DocumentProcessor._get_cache_path, DocumentProcessor.cache_key.
  destruct (encode file_name) as [encoded|]; repeat split; try congruence.
  intros path [= <-]. exists (MD5.hexdigest (content ++ encoded)).
  split; [reflexivity|]. split; [apply hexdigest_length | apply hexdigest_is_hex].
Qed.

Lemma pdf_name_truthy (n : pystr) :
  endswith (lower n) (lit ".pdf") = true -> truthy n = true.
Proof. destruct n; [vm_compute; discriminate | reflexivity]. Qed.

Lemma process_pdf_hit (self : DocumentProcessor.t) (content : pybytes)
  (n path : pystr) (docs : list Document) (w : World) :
  DocumentProcessor._get_cache_path self content n = Return path ->
  cache_files w !! path = Some (Some docs) ->
  DocumentProcessor._process_pdf self content n w = (w, Return (Some docs)).
Proof.
  intros Hpath Hhit.
  unfold DocumentProcessor._process_pdf, log_execution.
  apply error_handler_return.
  unfold DocumentProcessor._process_pdf_body, bind, call,
    DocumentProcessor._load_from_cache.
  rewrite Hpath, Hhit. reflexivity.
Qed.

Lemma process_pdf_miss (self : DocumentProcessor.t) (content : pybytes)
  (n path : pystr) (pages : list Document) (w : World) :
  DocumentProcessor._get_cache_path self content n = Return path ->
  DocumentProcessor._load_from_cache path w = (w, Return None) ->
  pdf_load content = Return pages ->
  DocumentProcessor._process_pdf self content n w
  = (if truthy (split_documents pages) && cache_writable w
     then set_cache_files
            (<[path := written (split_documents pages)]> (cache_files w)) w
     else w, Return (Some (split_documents pages))).
Proof.
  intros Hpath Hmiss Hload.
  unfold DocumentProcessor._process_pdf, log_execution.
  apply error_handler_return.
  unfold DocumentProcessor._process_pdf_body, bind, call, try_except, ret.
  rewrite Hpath, Hmiss, Hload.
  destruct (truthy (split_documents pages)); [|reflexivity].
  rewrite save_to_cache_unfold.
  destruct (cache_writable w); reflexivity.
Qed.

(** [process_file] on a PDF, in terms of [_process_pdf]. *)
Lemma process_file_pdf (self : DocumentProcessor.t) (f : UploadedFile) (w : World) :
  endswith (lower (name f)) (lit ".pdf") = true ->
  forall w1 docs,
    DocumentProcessor._process_pdf self (getvalue f) (name f) w = (w1, Return (Some docs)) ->
    DocumentProcessor.process_file self (Uploaded f) None w
    = (w1, Return (PyStr (join (nl ++ nl) (List.map page_content docs))))
    /\ DocumentProcessor.process_file self (Content_bytes (getvalue f)) (Some (name f)) w
       = (w1, Return (PyDocs docs)).
Proof.
  intros Hpdf w1 docs Hp.
  pose proof (pdf_name_truthy _ Hpdf) as Hname.
  split; unfold DocumentProcessor.process_file, log_execution;
    apply error_handler_return;
    unfold DocumentProcessor.process_file_body, try_except, bind, ret;
    cbn beta iota; rewrite ?Hname; cbn beta iota; rewrite Hpdf, Hp; reflexivity.
Qed.

(** X3.  When the cache holds a readable file under the key of a PDF,
    [process_file] hands back the cached chunks (their texts joined by
    blank lines for an upload, the documents themselves for raw bytes)
    and leaves the world as it is: the PDF loader and the splitter have
    no part in the result. *)
Theorem cache_hit_returns_cached_chunks (self : DocumentProcessor.t)
  (f : UploadedFile) (w : World) (path : pystr) (docs : list Document) :
  endswith (lower (name f)) (lit ".pdf") = true ->
  DocumentProcessor._get_cache_path self (getvalue f) (name f) = Return path ->
  cache_files w !! path = Some (Some docs) ->
  DocumentProcessor.process_file self (Uploaded f) None w
  = (w, Return (PyStr (join (nl ++ nl) (List.map page_content docs))))
  /\ DocumentProcessor.process_file self (Content_bytes (getvalue f)) (Some (name f)) w
     = (w, Return (PyDocs docs)).
Proof.
  intros Hpdf Hpath Hhit.
  apply process_file_pdf; [exact Hpdf|].
  apply (process_pdf_hit _ _ _ path); assumption.
Qed.

(** X5.  [process_file] never caches an empty chunk sequence: if every
    readable cache file holds at least one chunk before the call, so it
    does after it, whatever the input and the outcome. *)
Theorem process_file_keeps_cache_nonempty (self : DocumentProcessor.t)
  (arg : file_arg) (file_name : option pystr) (w : World) :
  cache_nonempty w ->
  cache_nonempty (fst (DocumentProcessor.process_file self arg file_name w)).
Proof.
  revert w. change (preserves cache_nonempty
                      (DocumentProcessor.process_file self arg file_name)).
  apply preserves_process_file.
  - intros w u H. exact H.
  - intros path docs Hdocs w H.
    rewrite save_to_cache_unfold.
    destruct (cache_writable w); [|exact H].
    intros p ds. cbn. destruct (decide (p = path)) as [->|Hne].
    + rewrite lookup_insert_eq. unfold written.
      destruct (DocumentProcessor.unencodable docs); [discriminate|].
      intros [= <-]. destruct docs; discriminate.
    + rewrite lookup_insert_ne by congruence. apply H.
Qed.

(** X6.  [process_file] reads and writes cache files and shows errors,
    and does nothing else: the conversation log, the registry of
    processed names, the index and the write permission of the cache are
    as before, whatever the input and the outcome. *)
Theorem process_file_frame (self : DocumentProcessor.t)
  (arg : file_arg) (file_name : option pystr) (w : World) :
  history (fst (DocumentProcessor.process_file self arg file_name w)) = history w
  /\ processed_documents (fst (DocumentProcessor.process_file self arg file_name w))
     = processed_documents w
  /\ vector_store (fst (DocumentProcessor.process_file self arg file_name w))
     = vector_store w
  /\ cache_writable (fst (DocumentProcessor.process_file self arg file_name w))
     = cache_writable w.
Proof.
  set (P := fun w' : World =>
              history w' = history w
              /\ processed_documents w' = processed_documents w
              /\ vector_store w' = vector_store w
              /\ cache_writable w' = cache_writable w).
  assert (H : preserves P (DocumentProcessor.process_file self arg file_name)).
  { apply preserves_process_file.
    - intros w' u H'. exact H'.
    - intros path docs _ w' (Hh & Hp & Hv & Hc).
      destruct (save_to_cache_frame path docs w') as (Hh' & Hp' & Hv' & Hc' & _).
      unfold P. rewrite Hh', Hp', Hv', Hc'. repeat split; assumption. }
  apply (H w). unfold P. repeat split.
Qed.

(** A decorated method hands every exception to the error handler. *)
Lemma error_handler_returns {A} (b : bool) (none : A) (m : M A) (w : World) :
  exists w1 a, error_handler b none m w = (w1, Return a).
Proof.
  unfold error_handler, try_except, bind, show, modify, ret.
  destruct (m w) as [w1 [a|e]]; [|destruct b]; eexists _, _; reflexivity.
Qed.

(** [_process_pdf] never raises. *)
Lemma process_pdf_returns (self : DocumentProcessor.t) (content : pybytes)
  (n : pystr) (w : World) :
  exists w1 r, DocumentProcessor._process_pdf self content n w = (w1, Return r).
Proof. apply error_handler_returns. Qed.

Lemma txt_name_truthy (n : pystr) :
  endswith (lower n) (lit ".txt") = true -> truthy n = true.
Proof. destruct n; [vm_compute; discriminate | reflexivity]. Qed.

(** X7.  The body of [process_file] raises in three situations and in no
    other, each time an [Exception] whose message is the text
    [处理文件失败: ] followed by the message of what went wrong.  For an
    argument that is neither an upload nor bytes with a non-empty name,
    it is the text of the argument error, and the world is unchanged.
    For an uploaded PDF for which [_process_pdf] handed back [None], it
    is the text of the type error that joining [None] raises, in the
    world [_process_pdf] left.  For a text file whose bytes are not
    UTF-8, it is the text of the decoding error of these bytes, and the
    world is unchanged. *)
Theorem process_file_wraps_errors (self : DocumentProcessor.t) (arg : file_arg)
  (file_name : option pystr) (w w' : World) (e : exn) :
  DocumentProcessor.process_file_body self arg file_name w = (w', Raise e)
  <->
  ((arg = Other_object
    \/ exists b, arg = Content_bytes b /\ (file_name = None \/ file_name = Some []))
   /\ w' = w
   /\ e = Exception (lit "处理文件失败: "
                      ++ lit "参数错误：需要提供有效的文件对象或文件内容和文件名"))
  \/ (exists f,
        arg = Uploaded f
        /\ endswith (lower (name f)) (lit ".pdf") = true
        /\ DocumentProcessor._process_pdf self (getvalue f) (name f) w
           = (w', Return None)
        /\ e = Exception (lit "处理文件失败: "
                           ++ lit "'NoneType' object is not iterable"))
  \/ (exists content n,
        ((exists f, arg = Uploaded f /\ content = getvalue f /\ n = name f)
         \/ (arg = Content_bytes content /\ file_name = Some n))
        /\ endswith (lower n) (lit ".pdf") = false
        /\ endswith (lower n) (lit ".txt") = true
        /\ utf8_decode content = None
        /\ w' = w
        /\ e = Exception (lit "处理文件失败: "
                           ++ library_text (UnicodeDecodeError content))).
Proof.
  split.
  - unfold DocumentProcessor.process_file_body, try_except, bind, ret, raise.
    destruct arg as [f|b|].
    + cbn beta iota.
      destruct (endswith (lower (name f)) (lit ".pdf")) eqn:Hpdf.
      * destruct (process_pdf_returns self (getvalue f) (name f) w) as (w1 & r & Hp).
        rewrite Hp. destruct r as [ds|]; [discriminate|].
        intros [= <- <-]. right; left. exists f.
        split; [reflexivity|]. split; [exact Hpdf|]. split; [exact Hp | reflexivity].
      * destruct (endswith (lower (name f)) (lit ".txt")) eqn:Htxt; [|discriminate].
        destruct (utf8_decode (getvalue f)) eqn:Hdec; [discriminate|].
        intros [= <- <-]. right; right. exists (getvalue f), (name f).
        split; [left; exists f; split; [|split]; reflexivity|].
        split; [exact Hpdf|]. split; [exact Htxt|]. split; [exact Hdec|].
        split; reflexivity.
    + destruct file_name as [[|c n]|].
      * intros [= <- <-]. left.
        split; [right; exists b; split; [reflexivity | right; reflexivity]|].
        split; reflexivity.
      * change (truthy (c :: n)) with true. cbn beta iota.
        destruct (endswith (lower (c :: n)) (lit ".pdf")) eqn:Hpdf.
        -- destruct (process_pdf_returns self b (c :: n) w) as (w1 & r & Hp).
           rewrite Hp. destruct r; discriminate.
        -- destruct (endswith (lower (c :: n)) (lit ".txt")) eqn:Htxt; [|discriminate].
           destruct (utf8_decode b) eqn:Hdec; [discriminate|].
           intros [= <- <-]. right; right. exists b, (c :: n).
           split; [right; split; reflexivity|].
           split; [exact Hpdf|]. split; [exact Htxt|]. split; [exact Hdec|].
           split; reflexivity.
      * intros [= <- <-]. left.
        split; [right; exists b; split; [reflexivity | left; reflexivity]|].
        split; reflexivity.
    + intros [= <- <-]. left. split; [left; reflexivity|]. split; reflexivity.
  - intros [(Harg & -> & ->) | [(f & -> & Hpdf & Hp & ->) | Htxt]].
    + destruct Harg as [-> | (b & -> & [-> | ->])]; reflexivity.
    + unfold DocumentProcessor.process_file_body, try_except, bind, ret, raise.
      cbn beta iota. rewrite Hpdf, Hp. reflexivity.
    + destruct Htxt as (content & n & Hin & Hpdf & Htxt & Hdec & -> & ->).
      pose proof (txt_name_truthy _ Htxt) as Hname.
      unfold DocumentProcessor.process_file_body, try_except, bind, ret, raise.
      destruct Hin as [(f & -> & -> & ->) | (-> & ->)]; cbn beta iota;
        rewrite ?Hname; cbn beta iota; rewrite Hpdf, Htxt, Hdec; reflexivity.
Qed.

(** X8.  An argument that is neither an upload nor bytes with a
    non-empty file name is rejected before anything is read or written:
    the body of [process_file] raises the wrapped argument error and the
    world is unchanged. *)
Theorem process_file_rejects_bad_arguments (self : DocumentProcessor.t)
  (b : pybytes) (file_name : option pystr) (w : World) :
  DocumentProcessor.process_file_body self Other_object file_name w
  = (w, Raise (Exception (lit "处理文件失败: " ++ str_exn DocumentProcessor.bad_argument)))
  /\ DocumentProcessor.process_file_body self (Content_bytes b) None w
     = (w, Raise (Exception (lit "处理文件失败: " ++ str_exn DocumentProcessor.bad_argument)))
  /\ DocumentProcessor.process_file_body self (Content_bytes b) (Some []) w
     = (w, Raise (Exception (lit "处理文件失败: " ++ str_exn DocumentProcessor.bad_argument))).
Proof. destruct file_name; repeat split. Qed.

(** [process_file] on a name that is not a PDF's: the two kinds of
    argument are treated alike, and the world is not touched. *)
Lemma process_file_body_other (self : DocumentProcessor.t) (f : UploadedFile)
  (w : World) :
  endswith (lower (name f)) (lit ".pdf") = false ->
  truthy (name f) = true ->
  DocumentProcessor.process_file_body self (Uploaded f) None w
  = DocumentProcessor.process_file_body self (Content_bytes (getvalue f))
      (Some (name f)) w
  /\ fst (DocumentProcessor.process_file_body self (Uploaded f) None w) = w.
Proof.
  intros Hpdf Hname.
  unfold DocumentProcessor.process_file_body, try_except, bind, ret, raise.
  cbn beta iota. rewrite Hname. cbn beta iota. rewrite Hpdf.
  destruct (endswith (lower (name f)) (lit ".txt")); [|split; reflexivity].
  destruct (utf8_decode (getvalue f)); split; reflexivity.
Qed.

(** X9.  A file whose name ends neither in [.pdf] nor in [.txt]
    (compared in lower case) is answered with the text
    [不支持的文件类型: ] followed by its name: no exception, nothing read,
    nothing written. *)
Theorem unsupported_type_is_a_text_result (self : DocumentProcessor.t)
  (f : UploadedFile) (w : World) :
  endswith (lower (name f)) (lit ".pdf") = false ->
  endswith (lower (name f)) (lit ".txt") = false ->
  DocumentProcessor.process_file self (Uploaded f) None w
  = (w, Return (PyStr (lit "不支持的文件类型: " ++ name f))).
Proof.
  intros Hpdf Htxt.
  unfold DocumentProcessor.process_file, log_execution.
  apply error_handler_return.
  unfold DocumentProcessor.process_file_body, try_except, bind, ret.
  cbn beta iota. rewrite Hpdf, Htxt. reflexivity.
Qed.

(** X10.  The two ways of handing a file to [process_file] agree.  For a
    name that is not a PDF's, an upload and its bytes with its name give
    the same outcome and leave the world alone.  For a PDF, whenever the
    bytes give a document list, the upload gives the texts of those
    documents joined by blank lines, from the same final world. *)
Theorem upload_and_bytes_agree (self : DocumentProcessor.t) (f : UploadedFile)
  (w : World) :
  truthy (name f) = true ->
  (endswith (lower (name f)) (lit ".pdf") = false ->
   DocumentProcessor.process_file_body self (Uploaded f) None w
   = DocumentProcessor.process_file_body self (Content_bytes (getvalue f))
       (Some (name f)) w
   /\ fst (DocumentProcessor.process_file_body self (Uploaded f) None w) = w)
  /\ (forall w1 docs,
        DocumentProcessor.process_file_body self (Content_bytes (getvalue f))
          (Some (name f)) w = (w1, Return (PyDocs docs)) ->
        DocumentProcessor.process_file_body self (Uploaded f) None w
        = (w1, Return (PyStr (join (nl ++ nl) (List.map page_content docs))))).
Proof.
  intros Hname. split.
  - intros Hpdf. apply process_file_body_other; assumption.
  - intros w1 docs.
    unfold DocumentProcessor.process_file_body, try_except, bind, ret, raise.
    cbn beta iota. rewrite Hname. cbn beta iota.
    destruct (endswith (lower (name f)) (lit ".pdf")).
    + destruct (DocumentProcessor._process_pdf self (getvalue f) (name f) w)
        as [w2 [[ds|]|e]]; try discriminate.
      intros [= <- <-]. reflexivity.
    + destruct (endswith (lower (name f)) (lit ".txt")); [|discriminate].
      destruct (utf8_decode (getvalue f)); discriminate.
Qed.

Lemma endswith_app (s suffix : pystr) : endswith (s ++ suffix) suffix = true.
Proof.
  unfold endswith, startswith. rewrite rev_app_distr, strip_prefix_complete.
  reflexivity.
Qed.

Lemma cache_path_is_cache_file (self : DocumentProcessor.t) (content : pybytes)
  (file_name path : pystr) :
  DocumentProcessor._get_cache_path self content file_name = Return path ->
  DocumentProcessor.is_cache_file self path = true.
Proof.
  unfold DocumentProcessor._get_cache_path, DocumentProcessor.cache_key.
  destruct (encode file_name) as [encoded|]; [|discriminate].
  intros [= <-]. unfold DocumentProcessor.is_cache_file.
  change (47 :: MD5.hexdigest (content ++ encoded) ++ lit ".json")
    with (lit "/" ++ MD5.hexdigest (content ++ encoded) ++ lit ".json").
  rewrite (app_assoc (DocumentProcessor.cache_dir self)), strip_prefix_complete.
  rewrite endswith_app. cbn [andb].
  apply negb_true_iff, bool_decide_eq_false_2.
  intros Hin. apply elem_of_app in Hin as [Hin|Hin].
  - pose proof (hexdigest_is_hex (content ++ encoded)) as Hhex.
    rewrite Forall_forall in Hhex. specialize (Hhex _ Hin). discriminate.
  - apply list_elem_of_In in Hin. vm_compute in Hin.
    intuition discriminate.
Qed.

(** X11.  On a cache that takes writes, [clear_cache] raises nothing and
    removes every cache file: afterwards the cache path of every document
    is a miss.  Files that are not [*.json] files directly below the cache
    directory are kept, and so are the registry of processed names and the
    index. *)
Theorem clear_cache_empties_the_cache (self : DocumentProcessor.t) (w : World) :
  cache_writable w = true ->
  snd (DocumentProcessor.clear_cache self w) = Return tt
  /\ (forall content file_name path,
        DocumentProcessor._get_cache_path self content file_name = Return path ->
        DocumentProcessor._load_from_cache path (fst (DocumentProcessor.clear_cache self w))
        = (fst (DocumentProcessor.clear_cache self w), Return None))
  /\ (forall path,
        DocumentProcessor.is_cache_file self path = false ->
        cache_files (fst (DocumentProcessor.clear_cache self w)) !! path
        = cache_files w !! path)
  /\ processed_documents (fst (DocumentProcessor.clear_cache self w))
     = processed_documents w
  /\ vector_store (fst (DocumentProcessor.clear_cache self w)) = vector_store w
  /\ history (fst (DocumentProcessor.clear_cache self w)) = history w.
Proof.
  intros Hw. unfold DocumentProcessor.clear_cache, try_except. rewrite Hw. cbn.
  split; [reflexivity|]. split; [|split; [|repeat split]].
  - intros content file_name path Hpath.
    unfold DocumentProcessor._load_from_cache. cbn.
    rewrite (proj2 (map_lookup_filter_None _ _ path)); [reflexivity|].
    right. intros x _. cbn.
    rewrite (cache_path_is_cache_file _ _ _ _ Hpath). discriminate.
  - intros path Hnot.
    destruct (cache_files w !! path) as [x|] eqn:Hl.
    + apply map_lookup_filter_Some. split; [exact Hl | exact Hnot].
    + apply map_lookup_filter_None. left. exact Hl.
Qed.

End CacheProperties.

(** X4.  Ingesting the same PDF a second time is a cache hit.  After a
    first [process_file] that missed the cache, loaded the PDF and wrote
    a non-empty chunk sequence whose strings can all be encoded, the file
    under the document's key holds those chunks.  A second [process_file]
    of the same upload then returns the texts of the chunks in the file
    and changes nothing, whatever the PDF loader and the splitter would
    do by then: they are not asked. *)
Theorem second_ingestion_hits_cache {E : Externals} (self : DocumentProcessor.t)
  (f : UploadedFile) (w : World) (path : pystr) (pages : list Document) :
  endswith (lower (name f)) (lit ".pdf") = true ->
  DocumentProcessor._get_cache_path self (getvalue f) (name f) = Return path ->
  DocumentProcessor._load_from_cache path w = (w, Return None) ->
  pdf_load (getvalue f) = Return pages ->
  truthy (split_documents pages) = true ->
  cache_writable w = true ->
  DocumentProcessor.unencodable (split_documents pages) = None ->
  let chunks := split_documents pages in
  let w1 := fst (DocumentProcessor.process_file self (Uploaded f) None w) in
  snd (DocumentProcessor.process_file self (Uploaded f) None w)
  = Return (PyStr (join (nl ++ nl) (List.map page_content chunks)))
  /\ cache_files w <> cache_files w1
  /\ DocumentProcessor._load_from_cache path w1 = (w1, Return (Some chunks))
  /\ forall later : Externals,
       DocumentProcessor.process_file (E := later) self (Uploaded f) None w1
       = (w1, Return (PyStr (join (nl ++ nl) (List.map page_content chunks)))).
Proof.
  intros Hpdf Hpath Hmiss Hload Hchunks Hw Henc chunks w1.
  pose proof (process_pdf_miss self _ _ path pages w Hpath Hmiss Hload) as Hfirst.
  rewrite Hchunks, Hw in Hfirst. cbn [andb] in Hfirst.
  unfold written in Hfirst. rewrite Henc in Hfirst. fold chunks in Hfirst.
  destruct (process_file_pdf self f w Hpdf _ _ Hfirst) as [H1 _].
  assert (Hw1 : w1 = set_cache_files (<[path := Some chunks]> (cache_files w)) w)
    by (subst w1; rewrite H1; reflexivity).
  assert (Hhit : cache_files w1 !! path = Some (Some chunks))
    by (rewrite Hw1; cbn; apply lookup_insert_eq).
  split; [rewrite H1; reflexivity|]. split; [|split].
  - intros Heq. rewrite <- Heq in Hhit.
    unfold DocumentProcessor._load_from_cache in Hmiss.
    rewrite Hhit in Hmiss. discriminate.
  - unfold DocumentProcessor._load_from_cache. rewrite Hhit. reflexivity.
  - intros later.
    apply (process_file_pdf (E := later) self f w1 Hpdf w1 chunks).
    apply (process_pdf_hit (E := later) self _ _ path); assumption.
Qed.

(** ** The upload loop *)

Section UploadProperties.
Context {E : Externals}.

(** An upload never comes back as a document list. *)
Lemma process_file_upload_result (dp : DocumentProcessor.t) (f : UploadedFile)
  (w w1 : World) (o : outcome pyvalue) :
  DocumentProcessor.process_file dp (Uploaded f) None w = (w1, o) ->
  (exists s, o = Return (PyStr s)) \/ o = Return PyNone.
Proof.
  unfold DocumentProcessor.process_file, log_execution, error_handler, try_except.
  destruct (DocumentProcessor.process_file_body dp (Uploaded f) None w)
    as [w2 [v|e]] eqn:Hbody.
  - intros [= _ <-]. left.
    revert Hbody.
    unfold DocumentProcessor.process_file_body, try_except, bind, ret, raise.
    cbn beta iota.
    destruct (endswith (lower (name f)) (lit ".pdf")).
    + destruct (DocumentProcessor._process_pdf dp (getvalue f) (name f) w)
        as [w3 [[ds|]|e]]; intros [= _ <-]. eexists; reflexivity.
    + destruct (endswith (lower (name f)) (lit ".txt")).
      * destruct (utf8_decode (getvalue f)); intros [= _ <-]. eexists; reflexivity.
      * intros [= _ <-]. eexists; reflexivity.
  - unfold bind, show, modify, ret. intros [= _ <-]. right. reflexivity.
Qed.

(** One pass of the loop body: the file is skipped or fails, and registry
    and documents are as before; or it is new and succeeds, and it is
    registered last and adds one document that names it as its source. *)
Lemma process_uploaded_file_step (dp : DocumentProcessor.t) (f : UploadedFile)
  (docs : list Document) (w : World) :
  exists w' docs',
    UIComponents.process_uploaded_file dp f docs w = (w', Return docs')
    /\ ((processed_documents w' = processed_documents w /\ docs' = docs)
        \/ ((name f ∉ processed_documents w)
            /\ processed_documents w' = processed_documents w ++ [name f]
            /\ exists s, docs' = docs ++ [mkDocument s [(lit "source", name f)]])).
Proof.
  unfold UIComponents.process_uploaded_file.
  destruct (bool_decide (name f ∈ processed_documents w)) eqn:Hin.
  - eexists _, _. split; [reflexivity|]. left. split; reflexivity.
  - apply bool_decide_eq_false_1 in Hin.
    pose proof (process_file_registry dp (Uploaded f) None w) as Hreg.
    unfold try_except, bind.
    destruct (DocumentProcessor.process_file dp (Uploaded f) None w)
      as [w1 o] eqn:Hpf. cbn [fst] in Hreg.
    destruct (process_file_upload_result _ _ _ _ _ Hpf) as [[s ->]| ->].
    + eexists _, _. split; [reflexivity|]. right.
      split; [exact Hin|]. cbn. rewrite Hreg. split; [reflexivity|].
      exists s. reflexivity.
    + eexists _, _. split; [reflexivity|]. left. cbn. split; [exact Hreg | reflexivity].
Qed.

(** What a whole batch does to the registry and to the collected
    documents. *)
Lemma process_uploaded_files_effect (dp : DocumentProcessor.t)
  (files : list UploadedFile) (docs : list Document) (w : World) :
  exists w' added new,
    UIComponents.process_uploaded_files dp files docs w = (w', Return (docs ++ new))
    /\ processed_documents w' = processed_documents w ++ added
    /\ sublist added (List.map name files)
    /\ (forall n, n ∈ added -> n ∉ processed_documents w)
    /\ NoDup added
    /\ Forall2 (fun d n => metadata d = [(lit "source", n)]) new added.
Proof.
  revert docs w; induction files as [|f files IH]; intros docs w.
  - exists w, [], []. cbn. rewrite !app_nil_r.
    repeat split; try constructor. intros n Hn. inversion Hn.
  - cbn [UIComponents.process_uploaded_files]. unfold bind.
    destruct (process_uploaded_file_step dp f docs w)
      as (w1 & docs1 & -> & [[Hreg ->] | (Hnew & Hreg & s & ->)]).
    + destruct (IH docs w1) as (w' & added & new & -> & Hreg' & Hsub & Hfresh & Hnd & Hsrc).
      exists w', added, new. rewrite Hreg in Hreg', Hfresh.
      repeat split; try assumption. cbn. apply sublist_cons. exact Hsub.
    + destruct (IH (docs ++ [mkDocument s [(lit "source", name f)]]) w1)
        as (w' & added & new & -> & Hreg' & Hsub & Hfresh & Hnd & Hsrc).
      exists w', (name f :: added), (mkDocument s [(lit "source", name f)] :: new).
      rewrite Hreg in Hreg', Hfresh.
      split; [rewrite <- app_assoc; reflexivity|].
      split; [rewrite Hreg', <- app_assoc; reflexivity|].
      split; [cbn; apply sublist_skip; exact Hsub|].
      split; [|split].
      * intros n Hn. apply elem_of_cons in Hn as [->|Hn]; [exact Hnew|].
        specialize (Hfresh n Hn). rewrite elem_of_app in Hfresh. tauto.
      * apply NoDup_cons. split; [|exact Hnd].
        intros Hn. specialize (Hfresh _ Hn). rewrite elem_of_app in Hfresh.
        apply Hfresh. right. apply list_elem_of_singleton. reflexivity.
      * constructor; [reflexivity | exact Hsrc].
Qed.

(** X12.  The upload loop never registers a name twice: a registry
    without duplicates is still without duplicates after any batch, also
    when the batch holds the same name several times. *)
Theorem registry_stays_duplicate_free (dp : DocumentProcessor.t)
  (files : list UploadedFile) (docs : list Document) (w : World) :
  NoDup (processed_documents w) ->
  NoDup (processed_documents (fst (UIComponents.process_uploaded_files dp files docs w))).
Proof.
  intros Hnd.
  destruct (process_uploaded_files_effect dp files docs w)
    as (w' & added & new & Hrun & Hreg & _ & Hfresh & Hnd' & _).
  rewrite Hrun. cbn [fst]. rewrite Hreg. apply NoDup_app. split; [exact Hnd|]. split; [|exact Hnd'].
  intros n Hn Hadded. apply (Hfresh n Hadded Hn).
Qed.

(** X13.  The upload loop only ever appends to the registry, and only
    names of the batch: the registry after a batch is the registry before
    it followed by names of uploaded files, in upload order, none of which
    was registered before. *)
Theorem registry_grows_by_batch_names (dp : DocumentProcessor.t)
  (files : list UploadedFile) (docs : list Document) (w : World) :
  exists added,
    processed_documents (fst (UIComponents.process_uploaded_files dp files docs w))
    = processed_documents w ++ added
    /\ sublist added (List.map name files)
    /\ forall n, n ∈ added -> n ∉ processed_documents w.
Proof.
  destruct (process_uploaded_files_effect dp files docs w)
    as (w' & added & new & Hrun & Hreg & Hsub & Hfresh & _ & _).
  exists added. rewrite Hrun. cbn [fst]. repeat split; assumption.
Qed.

(** X14.  Every file the upload loop registers contributes exactly one
    document, whatever its kind, and that document names the file as its
    source: the documents collected by a batch are the ones collected
    before, followed by one document per newly registered name, in the
    same order. *)
Theorem one_document_per_registered_file (dp : DocumentProcessor.t)
  (files : list UploadedFile) (docs : list Document) (w : World) :
  exists added new,
    UIComponents.process_uploaded_files dp files docs w
    = (fst (UIComponents.process_uploaded_files dp files docs w), Return (docs ++ new))
    /\ processed_documents (fst (UIComponents.process_uploaded_files dp files docs w))
       = processed_documents w ++ added
    /\ Forall2 (fun d n => metadata d = [(lit "source", n)]) new added.
Proof.
  destruct (process_uploaded_files_effect dp files docs w)
    as (w' & added & new & Hrun & Hreg & _ & _ & _ & Hsrc).
  exists added, new. rewrite Hrun. cbn. repeat split; assumption.
Qed.

Lemma preserves_modify (P : World -> Prop) (f : World -> World) :
  (forall w, P w -> P (f w)) -> preserves P (modify f).
Proof. intros Hf w H. apply Hf; exact H. Qed.

(** What the upload loop keeps: any property that looks neither at the
    display nor at the registry and survives the saving of a chunk
    sequence. *)
Lemma preserves_process_uploaded_files (P : World -> Prop)
  (dp : DocumentProcessor.t) (files : list UploadedFile) (docs : list Document) :
  ignores_ui P ->
  (forall w r, P w -> P (set_processed_documents r w)) ->
  (forall path ds, truthy ds = true ->
     preserves P (DocumentProcessor._save_to_cache path ds)) ->
  preserves P (UIComponents.process_uploaded_files dp files docs).
Proof.
  intros Hui Hreg Hsave. revert docs.
  induction files as [|f files IH]; intros docs; [apply preserves_ret|].
  cbn [UIComponents.process_uploaded_files].
  apply preserves_bind; [|intros; apply IH].
  intros w H. unfold UIComponents.process_uploaded_file.
  destruct (bool_decide _).
  - revert w H. apply preserves_bind; [apply preserves_show; exact Hui|].
    intros; apply preserves_ret.
  - revert w H. apply preserves_try.
    + apply preserves_bind; [apply preserves_process_file; assumption|].
      intros result. apply preserves_bind.
      * destruct result; try apply preserves_ret;
          (apply preserves_bind; [|intros; apply preserves_ret]);
          first [apply preserves_ret | apply preserves_raise].
      * intros docs'. apply preserves_bind.
        { apply preserves_modify. intros w H. apply Hreg; exact H. }
        intros _. apply preserves_bind; [apply preserves_show; exact Hui|].
        intros; apply preserves_ret.
    + intros e. apply preserves_bind; [apply preserves_show; exact Hui|].
      intros; apply preserves_ret.
Qed.

Lemma render_document_upload_unfold (dp : DocumentProcessor.t)
  (files : list UploadedFile) (clear : bool) (w : World) :
  UIComponents.render_document_upload dp files true clear w
  = match files with
    | [] => UIComponents.list_processed_documents clear [] (notice_shown w)
    | _ :: _ =>
      match UIComponents.process_uploaded_files dp files [] (notice_shown w) with
      | (w1, Raise e) => (w1, Raise e)
      | (w1, Return []) => UIComponents.list_processed_documents clear [] w1
      | (w1, Return (d :: docs)) =>
        match create_vector_store (d :: docs) with
        | Return index =>
          UIComponents.list_processed_documents clear (d :: docs)
            (set_vector_store (Some index) w1)
        | Raise e => (w1, Raise e)
        end
      end
    end.
Proof.
  unfold UIComponents.render_document_upload, notice_shown, bind, show, modify, ret, call.
  destruct files as [|f files]; [destruct (vector_store w); reflexivity|].
  cbn [truthy andb].
  destruct (vector_store w); cbn beta iota;
    match goal with |- context [UIComponents.process_uploaded_files dp ?fs [] ?w0] =>
      destruct (UIComponents.process_uploaded_files dp fs [] w0) as [w1 [[|d docs]|e]]
    end; try reflexivity;
    cbn [truthy]; destruct (create_vector_store (d :: docs)); reflexivity.
Qed.

(** X15.  When the index build fails after a batch, the exception leaves
    [render_document_upload] (before the button that clears the documents
    is reached, pressed or not) and the index is what it was, yet the
    names of the files the batch processed stay in the registry: at least
    one name was added, and a later upload of a file with such a name is
    answered with the "already present" warning and is not processed
    again. *)
Theorem failed_index_build_keeps_registration (dp : DocumentProcessor.t)
  (files : list UploadedFile) (w w1 : World) (docs : list Document) (e : exn) :
  UIComponents.process_uploaded_files dp files [] (notice_shown w) = (w1, Return docs) ->
  docs <> [] ->
  create_vector_store docs = Raise e ->
  (forall clear, UIComponents.render_document_upload dp files true clear w = (w1, Raise e))
  /\ vector_store w1 = vector_store w
  /\ exists added,
       added <> []
       /\ processed_documents w1 = processed_documents w ++ added
       /\ forall f later collected,
            name f ∈ added ->
            processed_documents later = processed_documents w1 ->
            UIComponents.process_uploaded_file dp f collected later
            = (set_ui (ui later ++ [st_warning (lit "⚠️ 已存在: " ++ name f)]) later,
               Return collected).
Proof.
  intros Hloop Hdocs Hbuild.
  assert (Hfiles : files <> []).
  { intros ->. cbn in Hloop. injection Hloop as _ <-. congruence. }
  split; [|split].
  - intros clear. rewrite render_document_upload_unfold.
    destruct files as [|f files]; [congruence|].
    rewrite Hloop. destruct docs as [|d docs]; [congruence|].
    rewrite Hbuild. reflexivity.
  - assert (H : preserves (fun w' => vector_store w' = vector_store w)
                  (UIComponents.process_uploaded_files dp files [])).
    { apply preserves_process_uploaded_files.
      - intros w' u H. exact H.
      - intros w' r H. exact H.
      - intros path ds _ w' H.
        destruct (save_to_cache_frame path ds w') as (_ & _ & Hv & _).
        rewrite Hv. exact H. }
    assert (Hn : vector_store (notice_shown w) = vector_store w)
      by (unfold notice_shown; destruct (vector_store w) eqn:Hv; cbn; congruence).
    specialize (H (notice_shown w) Hn). rewrite Hloop in H. exact H.
  - destruct (process_uploaded_files_effect dp files [] (notice_shown w))
      as (w' & added & new & Hrun & Hreg & _ & _ & _ & Hsrc).
    rewrite Hloop in Hrun. injection Hrun as <- ->.
    exists added. split; [|split].
    + intros ->. inversion Hsrc; subst. apply Hdocs. reflexivity.
    + rewrite Hreg. unfold notice_shown. destruct (vector_store w); reflexivity.
    + intros f later collected Hin Hlater.
      apply process_uploaded_file_known.
      rewrite Hlater, Hreg. apply elem_of_app. right. exact Hin.
Qed.

(** X16.  Uploading documents never alters the conversation: whatever
    the batch, the two buttons and the outcome, the log after
    [render_document_upload] is the log before it, in [UIComponents] and
    under the error handler of [App]. *)
Theorem upload_keeps_the_conversation (dp : DocumentProcessor.t)
  (files : list UploadedFile) (clicked clear : bool) (w : World) :
  history (fst (UIComponents.render_document_upload dp files clicked clear w))
  = history w
  /\ history (fst (App.render_document_upload dp files clicked clear w)) = history w.
Proof.
  set (P := fun w' : World => history w' = history w).
  assert (Hui : ignores_ui P) by (intros w' u H; exact H).
  assert (H : preserves P (UIComponents.render_document_upload dp files clicked clear)).
  { unfold UIComponents.render_document_upload.
    apply preserves_bind.
    { intros w' H'. destruct (vector_store w'); [exact H'|]. apply Hui. exact H'. }
    intros _. apply preserves_bind.
    { destruct (truthy files && clicked); [|apply preserves_ret].
      apply preserves_process_uploaded_files; [exact Hui | intros w' r H'; exact H' |].
      intros path ds _ w' H'.
      destruct (save_to_cache_frame path ds w') as (Hh & _).
      unfold P. rewrite Hh. exact H'. }
    intros docs. apply preserves_bind.
    { destruct (truthy files && truthy docs); [|apply preserves_ret].
      apply preserves_bind; [apply preserves_call|].
      intros index. apply preserves_modify. intros w' H'. exact H'. }
    intros _ w' H'. unfold UIComponents.list_processed_documents.
    destruct (truthy (processed_documents w') && clear); exact H'. }
  split; [apply (H w); reflexivity|].
  assert (H' : preserves P (App.render_document_upload dp files clicked clear)).
  { unfold App.render_document_upload, log_execution.
    apply preserves_error_handler; [exact Hui|].
    apply preserves_bind; [exact H | intros; apply preserves_ret]. }
  apply (H' w). reflexivity.
Qed.

Lemma list_processed_documents_rerun (clear : bool) (docs : list Document)
  (w w1 : World) :
  UIComponents.list_processed_documents clear docs w = (w1, Return Rerun) ->
  clear = true
  /\ processed_documents w <> []
  /\ w1 = set_ui (ui w ++ [st_success (lit "✅ 所有文档已清除")])
            (set_processed_documents [] (set_vector_store None w)).
Proof.
  unfold UIComponents.list_processed_documents.
  destruct (processed_documents w) as [|n names] eqn:Hreg; [discriminate|].
  destruct clear; [|discriminate].
  intros [= <-]. split; [reflexivity|]. split; [discriminate|].
  destruct w; reflexivity.
Qed.

(** X27.  [render_document_upload] ends in a rerun through the button
    that clears all documents and in no other way: the button was
    pressed, the registry is empty afterwards, the index is gone, and the
    last message shown confirms the clearing.  The rerun passes through
    the error handler of [App] as it is. *)
Theorem clear_all_resets_ingestion (dp : DocumentProcessor.t)
  (files : list UploadedFile) (clicked clear : bool) (w w1 : World) :
  UIComponents.render_document_upload dp files clicked clear w = (w1, Return Rerun) ->
  clear = true
  /\ processed_documents w1 = []
  /\ vector_store w1 = None
  /\ last (ui w1) = Some (st_success (lit "✅ 所有文档已清除"))
  /\ App.render_document_upload dp files clicked clear w = (w1, Return Rerun).
Proof.
  intros Hrun.
  assert (Happ : App.render_document_upload dp files clicked clear w
                 = (w1, Return Rerun)).
  { unfold App.render_document_upload, log_execution.
    apply error_handler_return. unfold bind. rewrite Hrun. reflexivity. }
  revert Hrun. unfold UIComponents.render_document_upload, bind.
  destruct (match vector_store w with
            | Some _ => _
            | None => _
            end) as [w0 [[]|e0]]; [|discriminate].
  destruct ((if truthy files && clicked
             then UIComponents.process_uploaded_files dp files []
             else ret []) w0) as [w2 [docs|e2]]; [|discriminate].
  destruct ((if truthy files && truthy docs then _ else ret tt) w2)
    as [w3 [[]|e3]]; [|discriminate].
  intros Hend.
  destruct (list_processed_documents_rerun _ _ _ _ Hend) as (-> & _ & ->).
  split; [reflexivity|]. split; [reflexivity|]. split; [reflexivity|].
  split; [cbn [ui set_ui]; apply last_snoc | exact Happ].
Qed.

End UploadProperties.

(** ** Post-processed text *)

Lemma lstrip_sublist (s : pystr) : sublist (lstrip s) s.
Proof.
  induction s as [|c s IH]; [constructor|]. simpl.
  destruct (is_space c); [apply sublist_cons; exact IH | reflexivity].
Qed.

Lemma lstrip_suffix (s : pystr) : exists k, s = k ++ lstrip s.
Proof.
  induction s as [|a s [k IH]]; [exists []; reflexivity|]. simpl.
  destruct (is_space a); [|exists []; reflexivity].
  exists (a :: k). simpl. f_equal. exact IH.
Qed.

Lemma rstrip_prefix (s : pystr) : exists k, s = rstrip s ++ k.
Proof.
  destruct (lstrip_suffix (rev s)) as [k Hk].
  apply (f_equal (@rev N)) in Hk. rewrite rev_involutive, rev_app_distr in Hk.
  exists (rev k). exact Hk.
Qed.

Lemma rstrip_sublist (s : pystr) : sublist (rstrip s) s.
Proof.
  destruct (rstrip_prefix s) as [k Hk]. rewrite Hk at 2.
  apply sublist_inserts_r. reflexivity.
Qed.

Lemma strip_sublist (s : pystr) : sublist (strip s) s.
Proof.
  unfold strip. etransitivity; [apply rstrip_sublist | apply lstrip_sublist].
Qed.

Lemma re_sub_fuel_sublist (n : nat) (s : pystr) : sublist (re_sub_fuel n s) s.
Proof.
  revert s; induction n as [|n IH]; intros s; [reflexivity|]. simpl.
  destruct (re_search s) as [[[pre g] post]|] eqn:Hs; [|reflexivity].
  rewrite (re_search_app _ _ _ _ Hs).
  apply sublist_app; [reflexivity|].
  do 3 apply sublist_inserts_l. apply IH.
Qed.

Lemma lstrip_head (s : pystr) (c : N) :
  head (lstrip s) = Some c -> is_space c = false.
Proof.
  induction s as [|a s IH]; [discriminate|]. simpl.
  destruct (is_space a) eqn:Ha; [exact IH|].
  intros [= <-]. exact Ha.
Qed.

(** A stripped text neither starts nor ends with whitespace. *)
Lemma strip_edges (s : pystr) (c : N) :
  head (strip s) = Some c \/ last (strip s) = Some c -> is_space c = false.
Proof.
  unfold strip, rstrip. set (t := lstrip s).
  intros [Hhead | Hlast].
  - destruct (rstrip_prefix t) as [k Hk]. unfold rstrip in Hk.
    destruct (rev (lstrip (rev t))) as [|a r] eqn:Hr; [discriminate|].
    injection Hhead as ->.
    apply (lstrip_head s). fold t. rewrite Hk. reflexivity.
  - rewrite rev_alt in Hlast. fold (reverse (lstrip (rev t))) in Hlast.
    rewrite last_reverse in Hlast. apply (lstrip_head _ _ Hlast).
Qed.

Section TurnProperties.
Context {E : Externals}.

(** X17.  Post-processing only ever removes text: the visible answer is
    a subsequence of the raw response, and so is the reasoning; neither
    is longer than the response. *)
Theorem post_processing_only_removes (response : pystr) :
  sublist (App.response_wo_think response) response
  /\ (length (App.response_wo_think response) <= length response)%nat
  /\ forall tc, App.think_content response = Some tc ->
       sublist tc response /\ (length tc <= length response)%nat.
Proof.
  assert (Hans : sublist (App.response_wo_think response) response).
  { unfold App.response_wo_think.
    destruct (re_search response); [|reflexivity].
    etransitivity; [apply strip_sublist | apply re_sub_fuel_sublist]. }
  split; [exact Hans|]. split; [apply sublist_length; exact Hans|].
  intros tc. unfold App.think_content.
  destruct (re_search response) as [[[pre g] post]|] eqn:Hs; [|discriminate].
  intros [= <-].
  assert (Htc : sublist (strip g) response).
  { etransitivity; [apply strip_sublist|].
    rewrite (re_search_app _ _ _ _ Hs).
    do 2 apply sublist_inserts_l. apply sublist_inserts_r. reflexivity. }
  split; [exact Htc | apply sublist_length; exact Htc].
Qed.

(** X18.  A reasoning segment is found exactly when the response holds
    an opening marker that is followed, somewhere later, by a closing
    marker.  The reasoning is then the stripped text between the first
    opening marker that has a closing marker after it and the first
    closing marker after that one. *)
Theorem reasoning_found_iff_markers (response : pystr) :
  ((exists tc, App.think_content response = Some tc)
   <-> exists a g b, response = a ++ think_open ++ g ++ think_close ++ b)
  /\ forall tc, App.think_content response = Some tc ->
       exists pre g post,
         response = pre ++ think_open ++ g ++ think_close ++ post
         /\ tc = strip g
         /\ forall a g' b,
              response = a ++ think_open ++ g' ++ think_close ++ b ->
              (length pre <= length a)%nat
              /\ (length pre = length a -> (length g <= length g')%nat).
Proof.
  split; [split|].
  - intros [tc Htc]. unfold App.think_content in Htc.
    destruct (re_search response) as [[[pre g] post]|] eqn:Hs; [|discriminate].
    exists pre, g, post. apply re_search_app; exact Hs.
  - intros Hex. unfold App.think_content.
    destruct (re_search response) as [[[pre g] post]|] eqn:Hs; [eexists; reflexivity|].
    apply re_search_None_iff in Hs. contradiction.
  - intros tc. unfold App.think_content.
    destruct (re_search response) as [[[pre g] post]|] eqn:Hs; [|discriminate].
    intros [= <-]. exists pre, g, post.
    split; [apply re_search_app; exact Hs|]. split; [reflexivity|].
    intros a g' b Heq. apply (re_search_leftmost_lazy _ _ _ _ _ _ _ Hs Heq).
Qed.

(** X19.  The log never holds a blank reasoning message or an empty
    list of chunks: every [assistant_think] message [_process_response]
    appends carries a non-empty text that neither starts nor ends with
    whitespace, and every [retrieved_doc] message carries at least one
    chunk text. *)
Theorem logged_messages_are_never_blank (response : pystr)
  (docs : option (list Document)) (w : World) (m : Message) :
  m ∈ drop (length (history w))
        (history (fst (App._process_response response docs w))) ->
  match role m, content m with
  | assistant_think, Text tc =>
    tc <> []
    /\ forall c, head tc = Some c \/ last tc = Some c -> is_space c = false
  | assistant_think, Texts _ => False
  | retrieved_doc, Texts texts => texts <> []
  | retrieved_doc, Text _ => False
  | _, _ => True
  end.
Proof.
  rewrite process_response_spec. cbn [fst history set_history].
  rewrite drop_app_length.
  unfold think_messages, doc_messages, App.think_content.
  rewrite !elem_of_app, list_elem_of_singleton.
  intros [-> | [Hm | Hm]]; [exact I | |].
  - destruct (re_search response) as [[[pre g] post]|]; [|inversion Hm].
    destruct (strip g) as [|c tc] eqn:Hg; cbn in Hm; [inversion Hm|].
    apply list_elem_of_singleton in Hm as ->. cbn [role content].
    split; [discriminate|]. rewrite <- Hg. apply strip_edges.
  - destruct docs as [[|d ds]|]; cbn in Hm; try (inversion Hm; fail).
    apply list_elem_of_singleton in Hm as ->. cbn. discriminate.
Qed.

Lemma think_messages_shape (response : pystr) :
  (length (think_messages response) <= 1)%nat
  /\ Forall (fun m => role m = assistant_think) (think_messages response).
Proof.
  unfold think_messages.
  destruct (App.think_content response) as [[|c tc]|]; cbn;
    split; try lia; repeat constructor.
Qed.

Lemma doc_messages_shape (docs : option (list Document)) :
  (length (doc_messages docs) <= 1)%nat
  /\ Forall (fun m => role m = retrieved_doc) (doc_messages docs).
Proof.
  unfold doc_messages.
  destruct docs as [[|d ds]|]; cbn; split; try lia; repeat constructor.
Qed.

(** The query of a turn changes the conversation log and nothing else:
    it appends at most three messages, none of them a user message, and
    none at all when it raises. *)
Lemma query_body_effect (cfg : Settings) (prompt : pystr) (w : World) :
  exists added,
    fst (App.query_body cfg prompt w) = set_history (history w ++ added) w
    /\ (length added <= 3)%nat
    /\ Forall (fun m => role m <> user) added
    /\ (forall e, snd (App.query_body cfg prompt w) = Raise e -> added = []).
Proof.
  assert (Hresp : forall response docs,
            exists added,
              fst (App._process_response response docs w)
              = set_history (history w ++ added) w
              /\ (length added <= 3)%nat
              /\ Forall (fun m => role m <> user) added
              /\ (forall e, snd (App._process_response response docs w) = Raise e ->
                  added = [])).
  { intros response docs. rewrite process_response_spec.
    eexists. split; [reflexivity|].
    destruct (think_messages_shape response) as [Hl1 Hr1].
    destruct (doc_messages_shape docs) as [Hl2 Hr2].
    split; [cbn; rewrite length_app; lia|]. split; [|discriminate].
    constructor; [discriminate|]. apply Forall_app. split.
    - eapply Forall_impl; [exact Hr1|]. cbn. intros m ->. discriminate.
    - eapply Forall_impl; [exact Hr2|]. cbn. intros m ->. discriminate. }
  assert (Hnone : exists added : list Message,
            w = set_history (history w ++ added) w
            /\ (length added <= 3)%nat
            /\ Forall (fun m => role m <> user) added
            /\ added = []).
  { exists []. rewrite app_nil_r. destruct w. cbn. repeat split; try lia. constructor. }
  unfold App.query_body.
  destruct (rag_enabled cfg);
    rewrite ?rag_query_body_cases, ?simple_query_body_cases.
  - destruct (search_documents _ _ _) as [docs|e1].
    + destruct (agent_run _ _) as [response|e2]; [apply Hresp|].
      destruct Hnone as (added & H1 & H2 & H3 & H4). exists added. cbn. tauto.
    + destruct Hnone as (added & H1 & H2 & H3 & H4). exists added. cbn. tauto.
  - destruct (agent_run _ _) as [response|e2]; [apply Hresp|].
    destruct Hnone as (added & H1 & H2 & H3 & H4). exists added. cbn. tauto.
Qed.

(** The world after a turn: the user message and what the query added
    are in the log, the display may show an error, the rest is as before. *)
Lemma process_user_input_effect (cfg : Settings) (prompt : pystr) (w : World) :
  exists added shown,
    fst (App.process_user_input cfg prompt w)
    = set_ui (ui w ++ shown)
        (set_history (history w ++ mkMessage user (Text prompt) :: added) w)
    /\ (length added <= 3)%nat
    /\ Forall (fun m => role m <> user) added.
Proof.
  rewrite process_user_input_unfold.
  set (w1 := set_history (history w ++ [mkMessage user (Text prompt)]) w).
  destruct (query_body_effect cfg prompt w1) as (added & Hw & Hlen & Hroles & Hraise).
  destruct (App.query_body cfg prompt w1) as [w2 [[]|e]] eqn:Hq; cbn [fst snd] in *.
  - rewrite (error_handler_return _ _ _ _ _ _ Hq). cbn [fst].
    exists added, []. rewrite Hw. subst w1. destruct w. cbn.
    rewrite <- !app_assoc, app_nil_r. repeat split; assumption.
  - rewrite (error_handler_raise _ _ _ _ _ _ Hq). cbn [fst].
    rewrite (Hraise e eq_refl) in *.
    exists [], [st_error (str_exn e)]. rewrite Hw. subst w1. destruct w. cbn.
    rewrite <- !app_assoc, app_nil_r. repeat split; try assumption; cbn; lia.
Qed.

(** X20.  The conversation log is append-only and every turn adds
    exactly one user message: whatever the mode and the outcome, the log
    after [process_user_input] is the log before it, the user message of
    the turn, and at most three further messages, none of which is a user
    message. *)
Theorem turn_appends_one_user_message (cfg : Settings) (prompt : pystr) (w : World) :
  exists added,
    history (fst (App.process_user_input cfg prompt w))
    = history w ++ mkMessage user (Text prompt) :: added
    /\ (length added <= 3)%nat
    /\ Forall (fun m => role m <> user) added.
Proof.
  destruct (process_user_input_effect cfg prompt w) as (added & shown & -> & Hlen & Hroles).
  exists added. repeat split; assumption.
Qed.

(** X21.  A query turn never touches ingestion state: the registry of
    processed names, the cache files and the index are the same after
    [process_user_input] as before, whether the turn completes or fails. *)
Theorem turn_keeps_ingestion_state (cfg : Settings) (prompt : pystr) (w : World) :
  processed_documents (fst (App.process_user_input cfg prompt w)) = processed_documents w
  /\ cache_files (fst (App.process_user_input cfg prompt w)) = cache_files w
  /\ vector_store (fst (App.process_user_input cfg prompt w)) = vector_store w.
Proof.
  destruct (process_user_input_effect cfg prompt w) as (added & shown & -> & _).
  repeat split.
Qed.

(** X22.  With RAG mode switched off, a completed turn sends the plain
    prompt and logs the user message, the assistant message and, when the
    response carried a non-empty reasoning segment, the [assistant_think]
    message; retrieval plays no part, and no [retrieved_doc] message is
    logged. *)
Theorem plain_turn_log (cfg : Settings) (prompt : pystr) (w : World)
  (response : pystr) :
  rag_enabled cfg = false ->
  agent_run (model_version cfg) (RAGAgent.plain_template prompt) = Return response ->
  history (fst (App.process_user_input cfg prompt w))
  = history w
    ++ [mkMessage user (Text prompt);
        mkMessage assistant (Text (App.response_wo_think response))]
    ++ think_messages response
  /\ Forall (fun m => role m <> retrieved_doc)
       (drop (length (history w)) (history (fst (App.process_user_input cfg prompt w)))).
Proof.
  intros Hrag Hagent.
  assert (Hlog : history (fst (App.process_user_input cfg prompt w))
                 = history w
                   ++ [mkMessage user (Text prompt);
                       mkMessage assistant (Text (App.response_wo_think response))]
                   ++ think_messages response).
  { rewrite process_user_input_unfold.
    erewrite error_handler_return.
    2:{ unfold App.query_body. rewrite Hrag, simple_query_body_cases.
        change (RAGAgent.full_prompt prompt None) with (RAGAgent.plain_template prompt).
        rewrite Hagent. apply process_response_spec. }
    cbn. rewrite app_nil_r, <- app_assoc. reflexivity. }
  split; [exact Hlog|]. rewrite Hlog, drop_app_length.
  constructor; [discriminate|]. constructor; [discriminate|].
  destruct (think_messages_shape response) as [_ Hr].
  eapply Forall_impl; [exact Hr|]. cbn. intros m ->. discriminate.
Qed.

End TurnProperties.

(** ** The sidebar's model selection *)

Lemma index_Some (current : pystr) (options : list pystr) (i : nat) :
  UIComponents.index current options = Some i -> options !! i = Some current.
Proof.
  revert i; induction options as [|o options IH]; intros i; [discriminate|]. simpl.
  destruct (bool_decide (o = current)) eqn:Ho.
  - intros [= <-]. apply bool_decide_eq_true_1 in Ho. subst. reflexivity.
  - destruct (UIComponents.index current options) as [j|]; [|discriminate].
    intros [= <-]. apply IH. reflexivity.
Qed.

Lemma index_None (current : pystr) (options : list pystr) :
  UIComponents.index current options = None <-> current ∉ options.
Proof.
  induction options as [|o options IH]; simpl.
  - split; [intros _ H; inversion H | reflexivity].
  - destruct (bool_decide (o = current)) eqn:Ho.
    + apply bool_decide_eq_true_1 in Ho. subst. split; [discriminate|].
      intros H. exfalso. apply H. constructor.
    + apply bool_decide_eq_false_1 in Ho. rewrite not_elem_of_cons.
      destruct (UIComponents.index current options); cbn.
      * split; [discriminate|]. intros [_ H]. apply IH in H. discriminate.
      * split; [|reflexivity]. intros _. split; [congruence | apply IH; reflexivity].
Qed.

(** X23.  While the user has picked nothing, the model selection keeps
    the current model when it is one of the available models and falls
    back to the first available model otherwise (likewise for the
    embedding model); and whatever is picked, the selected model is one of
    the available ones. *)
Theorem model_selection_falls_back_to_first (available_models : list pystr)
  (current_model : pystr) (embedding_models : list pystr)
  (current_embedding_model : pystr) :
  UIComponents.render_model_selection available_models current_model
    embedding_models current_embedding_model None None
  = (if bool_decide (current_model ∈ available_models)
     then Some current_model else head available_models,
     if bool_decide (current_embedding_model ∈ embedding_models)
     then Some current_embedding_model else head embedding_models)
  /\ forall picked_model picked_embedding new_model,
       fst (UIComponents.render_model_selection available_models current_model
              embedding_models current_embedding_model picked_model picked_embedding)
       = Some new_model ->
       new_model ∈ available_models.
Proof.
  assert (Hsel : forall options current,
            UIComponents.selectbox options (UIComponents.preselected options current) None
            = if bool_decide (current ∈ options) then Some current else head options).
  { intros options current. unfold UIComponents.selectbox, UIComponents.preselected.
    destruct (UIComponents.index current options) as [i|] eqn:Hi.
    - rewrite (index_Some _ _ _ Hi). rewrite bool_decide_eq_true_2; [reflexivity|].
      apply list_elem_of_lookup. exists i. apply index_Some; exact Hi.
    - apply index_None in Hi. rewrite (bool_decide_eq_false_2 _ Hi).
      destruct options; reflexivity. }
  split.
  - unfold UIComponents.render_model_selection. rewrite !Hsel. reflexivity.
  - intros pm pe new_model. unfold UIComponents.render_model_selection,
      UIComponents.selectbox. cbn [fst]. intros H.
    apply list_elem_of_lookup. eexists. exact H.
Qed.

(** With the shipped settings the default model is not among the
    available ones, so the first available model is selected. *)
Lemma model_selection_falls_back_to_first_witness :
  bool_decide (settings.DEFAULT_MODEL ∈ settings.AVAILABLE_MODELS) = false
  /\ UIComponents.render_model_selection settings.AVAILABLE_MODELS settings.DEFAULT_MODEL
       settings.AVAILABLE_EMBEDDING_MODELS settings.EMBEDDING_MODEL None None
     = (Some (lit "qwen3:1.7b"), Some (lit "bge-m3:latest")).
Proof.
  split; [vm_compute; reflexivity|].
  destruct (model_selection_falls_back_to_first settings.AVAILABLE_MODELS
              settings.DEFAULT_MODEL settings.AVAILABLE_EMBEDDING_MODELS
              settings.EMBEDDING_MODEL) as [-> _].
  vm_compute. reflexivity.
Defined.

(** ** UTF-8 *)

Lemma all_bits_spec (f : N -> bool) (depth : nat) (prefix : N) :
  all_bits f depth prefix = true ->
  forall k, k < 2 ^ N.of_nat depth -> f (prefix * 2 ^ N.of_nat depth + k) = true.
Proof.
  revert prefix; induction depth as [|d IH]; intros prefix.
  - cbn [all_bits]. intros Hf k Hk. change (2 ^ N.of_nat 0) with 1 in *.
    assert (k = 0) as -> by lia. rewrite N.mul_1_r, N.add_0_r. exact Hf.
  - cbn [all_bits].
    destruct (all_bits f d (2 * prefix)) eqn:H0; [|discriminate].
    intros H1 k Hk.
    rewrite Nat2N.inj_succ, N.pow_succ_r' in *.
    destruct (N.lt_ge_cases k (2 ^ N.of_nat d)) as [Hlow|Hhigh].
    + replace (prefix * (2 * 2 ^ N.of_nat d) + k)
        with (2 * prefix * 2 ^ N.of_nat d + k) by lia.
      apply IH; assumption.
    + replace (prefix * (2 * 2 ^ N.of_nat d) + k)
        with ((2 * prefix + 1) * 2 ^ N.of_nat d + (k - 2 ^ N.of_nat d)) by lia.
      apply IH; [assumption | lia].
Qed.

Lemma all_bits_below (f : N -> bool) (depth : nat) (n : N) :
  all_bits f depth 0 = true -> n < 2 ^ N.of_nat depth -> f n = true.
Proof. intros H Hn. apply (all_bits_spec f depth 0 H n Hn). Qed.

Lemma cont_ok_all (d : N) : d < 64 -> cont_ok d = true.
Proof. apply (all_bits_below cont_ok 6). vm_compute. reflexivity. Qed.

Lemma lead2_ok_all (q : N) : q < 32 -> lead2_ok q = true.
Proof. apply (all_bits_below lead2_ok 5). vm_compute. reflexivity. Qed.

Lemma lead3_ok_all (x : N) : x < 1024 -> lead3_ok x = true.
Proof. apply (all_bits_below lead3_ok 10). vm_compute. reflexivity. Qed.

Lemma lead4_ok_all (y : N) : y < 512 -> lead4_ok y = true.
Proof. apply (all_bits_below lead4_ok 9). vm_compute. reflexivity. Qed.

Lemma to_N_byte_of_N (n : N) : n < 256 -> Byte.to_N (byte_of_N n) = n.
Proof.
  intros Hn. unfold byte_of_N. rewrite N.mod_small by exact Hn.
  destruct (Byte.of_N n) as [b|] eqn:Hb.
  - apply Byte.to_of_N. exact Hb.
  - apply Byte.of_N_None_iff in Hb. lia.
Qed.

(** A number is its last six bits below the rest. *)
Lemma split6 (c : N) : N.lor (N.shiftl (N.shiftr c 6) 6) (N.land c 0x3F) = c.
Proof.
  apply N.bits_inj. intros m.
  rewrite N.lor_spec. change 0x3F with (N.ones 6). rewrite N.land_ones.
  destruct (N.lt_ge_cases m 6) as [Hm|Hm].
  - rewrite N.shiftl_spec_low by exact Hm.
    rewrite N.mod_pow2_bits_low by exact Hm. reflexivity.
  - rewrite N.shiftl_spec_high' by exact Hm.
    rewrite N.shiftr_spec', N.mod_pow2_bits_high by exact Hm.
    rewrite orb_false_r. f_equal. lia.
Qed.

Lemma low6 (c : N) : N.land c 0x3F < 64.
Proof.
  change 0x3F with (N.ones 6). rewrite N.land_ones.
  apply N.mod_upper_bound. discriminate.
Qed.

Lemma shiftr_bounds (c : N) (k lo hi : N) :
  lo * 2 ^ k <= c < hi * 2 ^ k -> lo <= N.shiftr c k < hi.
Proof.
  intros [Hlo Hhi]. rewrite N.shiftr_div_pow2.
  assert (0 < 2 ^ k) by (apply N.neq_0_lt_0, N.pow_nonzero; discriminate).
  split.
  - apply N.div_le_lower_bound; lia.
  - apply N.Div0.div_lt_upper_bound; lia.
Qed.

Lemma split12 (x d : N) :
  N.lor (N.shiftl (N.shiftr x 6) 12) (N.lor (N.shiftl (N.land x 0x3F) 6) d)
  = N.lor (N.shiftl x 6) d.
Proof.
  rewrite N.lor_assoc. f_equal.
  change 12 with (6 + 6). rewrite <- N.shiftl_shiftl, <- N.shiftl_lor, split6.
  reflexivity.
Qed.

Ltac split_andb :=
  repeat match goal with
         | H : _ && _ = true |- _ => apply andb_prop in H; destruct H
         | H : negb _ = true |- _ => apply negb_true_iff in H
         | H : (_ =? _) = true |- _ => apply N.eqb_eq in H
         end.

(** Decoding the encoding of one code point gives it back, in front of
    whatever follows. *)
Lemma decode_encode_cp (c : N) (bc : pybytes) (rest : list N) :
  utf8_encode_cp c = Some bc ->
  utf8_decode_N (List.map Byte.to_N bc ++ rest)
  = option_map (cons c) (utf8_decode_N rest).
Proof.
  unfold utf8_encode_cp.
  pose proof (cont_ok_all _ (low6 c)) as Hd0.
  pose proof (cont_ok_all _ (low6 (N.shiftr c 6))) as Hd1.
  pose proof (cont_ok_all _ (low6 (N.shiftr c 12))) as Hd2.
  unfold cont_ok in Hd0, Hd1, Hd2.
  destruct (N.ltb_spec c 0x80) as [H1|H1].
  { intros [= <-]. cbn [List.map app].
    rewrite to_N_byte_of_N by lia. cbn [utf8_decode_N].
    destruct (N.ltb_spec c 0x80); [reflexivity | lia]. }
  destruct (N.ltb_spec c 0x800) as [H2|H2].
  { intros [= <-]. cbn [List.map app].
    pose proof (shiftr_bounds c 6 2 32 ltac:(lia)) as Hq.
    pose proof (lead2_ok_all (N.shiftr c 6) ltac:(lia)) as Hl.
    unfold lead2_ok in Hl.
    replace ((2 <=? N.shiftr c 6) && (N.shiftr c 6 <? 32)) with true in Hl
      by (symmetry; apply andb_true_intro; split;
          [apply N.leb_le | apply N.ltb_lt]; lia).
    cbn [negb orb] in Hl.
    remember (N.lor 0xC0 (N.shiftr c 6)) as b0.
    remember (N.lor 0x80 (N.land c 0x3F)) as b1.
    split_andb.
    rewrite !to_N_byte_of_N by (apply N.ltb_lt; assumption).
    cbn [utf8_decode_N].
    repeat match goal with H : _ = true |- _ => rewrite H | H : _ = false |- _ => rewrite H end.
    cbn [andb].
    repeat match goal with H : N.land _ _ = _ |- _ => rewrite H end.
    rewrite split6. reflexivity. }
  destruct (N.ltb_spec c 0x10000) as [H3|H3].
  { destruct ((0xD800 <=? c) && (c <=? 0xDFFF)) eqn:Hsur; [discriminate|].
    intros [= <-]. cbn [List.map app].
    pose proof (shiftr_bounds c 6 32 1024 ltac:(lia)) as Hx.
    pose proof (lead3_ok_all (N.shiftr c 6) ltac:(lia)) as Hl.
    unfold lead3_ok in Hl.
    replace ((32 <=? N.shiftr c 6) && (N.shiftr c 6 <? 1024)
             && negb ((0x360 <=? N.shiftr c 6) && (N.shiftr c 6 <? 0x380)))
      with true in Hl.
    2:{ symmetry. apply andb_true_intro; split;
          [apply andb_true_intro; split; [apply N.leb_le | apply N.ltb_lt]; lia|].
        apply negb_true_iff, andb_false_iff.
        apply andb_false_iff in Hsur as [Hs|Hs].
        - left. apply N.leb_gt. apply N.leb_gt in Hs.
          apply (shiftr_bounds c 6 0 0x360). lia.
        - right. apply N.ltb_ge. apply N.leb_gt in Hs.
          apply (shiftr_bounds c 6 0x380 1024). lia. }
    cbn [negb orb] in Hl.
    replace (N.shiftr c 12) with (N.shiftr (N.shiftr c 6) 6) in *
      by (rewrite N.shiftr_shiftr; reflexivity).
    remember (N.lor 0xE0 (N.shiftr (N.shiftr c 6) 6)) as b0.
    remember (N.lor 0x80 (N.land (N.shiftr c 6) 0x3F)) as b1.
    remember (N.lor 0x80 (N.land c 0x3F)) as b2.
    split_andb.
    rewrite !to_N_byte_of_N by (apply N.ltb_lt; assumption).
    cbn [utf8_decode_N].
    repeat match goal with H : _ = true |- _ => rewrite H | H : _ = false |- _ => rewrite H end.
    cbn [andb negb].
    repeat match goal with H : N.land _ _ = _ |- _ => rewrite H end.
    rewrite split12, split6. reflexivity. }
  destruct (N.ltb_spec c 0x110000) as [H4|H4]; [|discriminate].
  intros [= <-]. cbn [List.map app].
  pose proof (shiftr_bounds c 12 16 272 ltac:(lia)) as Hy.
  pose proof (lead4_ok_all (N.shiftr c 12) ltac:(lia)) as Hl.
  unfold lead4_ok in Hl.
  replace ((16 <=? N.shiftr c 12) && (N.shiftr c 12 <? 272)) with true in Hl
    by (symmetry; apply andb_true_intro; split;
        [apply N.leb_le | apply N.ltb_lt]; lia).
  cbn [negb orb] in Hl.
  replace (N.shiftr c 18) with (N.shiftr (N.shiftr c 12) 6) in *
    by (rewrite N.shiftr_shiftr; reflexivity).
  remember (N.lor 0xF0 (N.shiftr (N.shiftr c 12) 6)) as b0.
  remember (N.lor 0x80 (N.land (N.shiftr c 12) 0x3F)) as b1.
  remember (N.lor 0x80 (N.land (N.shiftr c 6) 0x3F)) as b2.
  remember (N.lor 0x80 (N.land c 0x3F)) as b3.
  split_andb.
  rewrite !to_N_byte_of_N by (apply N.ltb_lt; assumption).
  cbn [utf8_decode_N].
  repeat match goal with H : _ = true |- _ => rewrite H | H : _ = false |- _ => rewrite H end.
  cbn [andb negb].
  repeat match goal with H : N.land _ _ = _ |- _ => rewrite H end.
  replace (N.lor (N.shiftl (N.shiftr (N.shiftr c 12) 6) 18)
             (N.lor (N.shiftl (N.land (N.shiftr c 12) 0x3F) 12)
                (N.lor (N.shiftl (N.land (N.shiftr c 6) 0x3F) 6) (N.land c 0x3F))))
    with c; [reflexivity|].
  rewrite N.lor_assoc.
  replace (N.lor (N.shiftl (N.shiftr (N.shiftr c 12) 6) 18)
             (N.shiftl (N.land (N.shiftr c 12) 0x3F) 12))
    with (N.shiftl (N.shiftr c 12) 12).
  2:{ rewrite <- (split6 (N.shiftr c 12)) at 1.
      rewrite N.shiftl_lor, N.shiftl_shiftl. reflexivity. }
  replace (N.shiftr c 12) with (N.shiftr (N.shiftr c 6) 6)
    by (rewrite N.shiftr_shiftr; reflexivity).
  rewrite split12, split6. reflexivity.
Qed.

Lemma decode_encode (s : pystr) (bs : pybytes) :
  encode s = Some bs -> utf8_decode bs = Some s.
Proof.
  unfold utf8_decode. revert bs; induction s as [|c s IH]; intros bs.
  - intros [= <-]. reflexivity.
  - cbn [encode].
    destruct (utf8_encode_cp c) as [bc|] eqn:Hc; [|discriminate].
    destruct (encode s) as [rest|]; [|discriminate].
    intros [= <-]. rewrite List.map_app.
    rewrite (decode_encode_cp c bc _ Hc), (IH rest eq_refl). reflexivity.
Qed.

Section TextProperties.
Context {E : Externals}.

(** X24.  A text file is ingested as the text it encodes: when the bytes
    of an uploaded [.txt] file are the UTF-8 encoding of a text, whatever
    its characters, [process_file] returns exactly that text and leaves
    the world as it is. *)
Theorem text_file_round_trip (self : DocumentProcessor.t) (file_name text : pystr)
  (encoded : pybytes) (w : World) :
  endswith (lower file_name) (lit ".pdf") = false ->
  endswith (lower file_name) (lit ".txt") = true ->
  encode text = Some encoded ->
  DocumentProcessor.process_file self (Uploaded (mkUploadedFile file_name encoded)) None w
  = (w, Return (PyStr text)).
Proof.
  intros Hpdf Htxt Henc.
  unfold DocumentProcessor.process_file, log_execution.
  apply error_handler_return.
  unfold DocumentProcessor.process_file_body, try_except, bind, ret.
  cbn [getvalue name]. rewrite Hpdf, Htxt, (decode_encode _ _ Henc). reflexivity.
Qed.

End TextProperties.

(** ** Cache misses *)

Section MissProperties.
Context {E : Externals}.

(** X25.  A cache file that cannot be read back is treated as a miss
    and written anew: when the file under a PDF's key is unreadable, the
    PDF loads into a non-empty chunk sequence and the cache takes writes,
    [process_file] returns the fresh chunks' texts.  Afterwards the file
    loads as those chunks when every string of them can be encoded; when
    one cannot, the file is unreadable still and the next ingestion
    misses the cache again. *)
Theorem unreadable_cache_file_is_replaced (self : DocumentProcessor.t)
  (f : UploadedFile) (w : World) (path : pystr) (pages : list Document) :
  endswith (lower (name f)) (lit ".pdf") = true ->
  DocumentProcessor._get_cache_path self (getvalue f) (name f) = Return path ->
  cache_files w !! path = Some None ->
  pdf_load (getvalue f) = Return pages ->
  truthy (split_documents pages) = true ->
  cache_writable w = true ->
  snd (DocumentProcessor.process_file self (Uploaded f) None w)
  = Return (PyStr (join (nl ++ nl) (List.map page_content (split_documents pages))))
  /\ snd (DocumentProcessor._load_from_cache path
            (fst (DocumentProcessor.process_file self (Uploaded f) None w)))
     = Return (written (split_documents pages))
  /\ (DocumentProcessor.unencodable (split_documents pages) = None ->
      snd (DocumentProcessor._load_from_cache path
             (fst (DocumentProcessor.process_file self (Uploaded f) None w)))
      = Return (Some (split_documents pages)))
  /\ (DocumentProcessor.unencodable (split_documents pages) <> None ->
      cache_files (fst (DocumentProcessor.process_file self (Uploaded f) None w))
      !! path = Some None).
Proof.
  intros Hpdf Hpath Hbad Hload Hchunks Hw.
  assert (Hmiss : DocumentProcessor._load_from_cache path w = (w, Return None))
    by (unfold DocumentProcessor._load_from_cache; rewrite Hbad; reflexivity).
  pose proof (process_pdf_miss self _ _ path pages w Hpath Hmiss Hload) as Hfirst.
  rewrite Hchunks, Hw in Hfirst. cbn [andb] in Hfirst.
  destruct (process_file_pdf self f w Hpdf _ _ Hfirst) as [H1 _].
  rewrite H1. cbn [fst snd]. split; [reflexivity|].
  unfold DocumentProcessor._load_from_cache. cbn.
  rewrite lookup_insert_eq. unfold written.
  destruct (DocumentProcessor.unencodable (split_documents pages));
    repeat split; congruence.
Qed.

(** X26.  A PDF that fails to load leaves no trace: on a cache miss, the
    exception of the loader leaves [_process_pdf] as it was raised, and
    the world, the cache included, is unchanged, so the next attempt
    starts afresh. *)
Theorem failed_load_leaves_no_trace (self : DocumentProcessor.t)
  (content : pybytes) (file_name path : pystr) (w : World) (e : exn) :
  DocumentProcessor._get_cache_path self content file_name = Return path ->
  DocumentProcessor._load_from_cache path w = (w, Return None) ->
  pdf_load content = Raise e ->
  DocumentProcessor._process_pdf_body self content file_name w = (w, Raise e).
Proof.
  intros Hpath Hmiss Hload.
  unfold DocumentProcessor._process_pdf_body, bind, call, try_except, raise.
  rewrite Hpath, Hmiss, Hload. reflexivity.
Qed.

End MissProperties.

(** ** The further properties at concrete inputs *)

Lemma cache_path_shape_witness :
  exists key,
    sample_path = DocumentProcessor.cache_dir DocumentProcessor.default
                  ++ lit "/" ++ key ++ lit ".json"
    /\ length key = 32%nat
    /\ Forall (fun c => is_lower_hex c = true) key.
Proof.
  apply (proj1 (cache_path_shape DocumentProcessor.default
                  (getvalue sample_pdf) (name sample_pdf))).
  vm_compute. reflexivity.
Defined.

Lemma cache_hit_returns_cached_chunks_witness :
  DocumentProcessor.process_file (E := offline) DocumentProcessor.default
    (Uploaded sample_pdf) None cached
  = (cached, Return (PyStr (lit "chunk one"))).
Proof.
  assert (H1 : endswith (lower (name sample_pdf)) (lit ".pdf") = true)
    by (vm_compute; reflexivity).
  assert (H2 : DocumentProcessor._get_cache_path DocumentProcessor.default
                 (getvalue sample_pdf) (name sample_pdf) = Return sample_path)
    by (vm_compute; reflexivity).
  assert (H3 : cache_files cached !! sample_path = Some (Some [sample_chunk]))
    by (vm_compute; reflexivity).
  destruct (cache_hit_returns_cached_chunks (E := offline) DocumentProcessor.default
              sample_pdf cached sample_path [sample_chunk] H1 H2 H3) as [-> _].
  reflexivity.
Defined.

Lemma second_ingestion_hits_cache_witness :
  DocumentProcessor._load_from_cache sample_path
    (fst (DocumentProcessor.process_file (E := online) DocumentProcessor.default
            (Uploaded sample_pdf) None fresh))
  = (fst (DocumentProcessor.process_file (E := online) DocumentProcessor.default
            (Uploaded sample_pdf) None fresh),
     Return (Some [mkDocument (lit "a") []; mkDocument (lit "b") []]))
  /\ DocumentProcessor.process_file (E := offline) DocumentProcessor.default
       (Uploaded sample_pdf) None
       (fst (DocumentProcessor.process_file (E := online) DocumentProcessor.default
               (Uploaded sample_pdf) None fresh))
     = (fst (DocumentProcessor.process_file (E := online) DocumentProcessor.default
               (Uploaded sample_pdf) None fresh),
        Return (PyStr (lit "a" ++ nl ++ nl ++ lit "b"))).
Proof.
  assert (H : DocumentProcessor._load_from_cache sample_path fresh = (fresh, Return None)
              -> _)
    by exact (second_ingestion_hits_cache (E := online) DocumentProcessor.default
                sample_pdf fresh sample_path [sample_page] eq_refl eq_refl).
  destruct (H eq_refl eq_refl eq_refl eq_refl eq_refl) as (_ & _ & Hload & Hlater).
  split; [exact Hload | exact (Hlater offline)].
Defined.

Lemma process_file_keeps_cache_nonempty_witness :
  match cache_files
          (fst (DocumentProcessor.process_file (E := online) DocumentProcessor.default
                  (Uploaded sample_pdf) None fresh)) !! sample_path with
  | Some (Some docs) => docs <> []
  | _ => True
  end.
Proof.
  assert (Hfresh : cache_nonempty fresh)
    by (intros path docs H; vm_compute in H; discriminate).
  pose proof (process_file_keeps_cache_nonempty (E := online) DocumentProcessor.default
                (Uploaded sample_pdf) None fresh Hfresh sample_path) as H.
  destruct (cache_files _ !! sample_path) as [[docs|]|]; [|exact I|exact I].
  apply (H docs eq_refl).
Defined.

Lemma process_file_wraps_errors_witness :
  DocumentProcessor.process_file_body (E := offline) DocumentProcessor.default
    (Content_bytes (blit "hello")) None fresh
  = (fresh,
     Raise (Exception
              (lit "处理文件失败: 参数错误：需要提供有效的文件对象或文件内容和文件名")))
  /\ DocumentProcessor.process_file_body (E := offline) DocumentProcessor.default
       (Uploaded sample_pdf) None fresh
     = (set_ui [st_error (lit "connection refused")] fresh,
        Raise (Exception (lit "处理文件失败: 'NoneType' object is not iterable")))
  /\ DocumentProcessor.process_file_body (E := offline) DocumentProcessor.default
       (Uploaded (mkUploadedFile (lit "b.txt") [Byte.xff])) None fresh
     = (fresh, Raise (Exception (lit "处理文件失败: error"))).
Proof.
  split; [|split];
    apply (proj2 (process_file_wraps_errors (E := offline) _ _ _ _ _ _)).
  - left. split; [right; exists (blit "hello"); split; [|left]; reflexivity|].
    split; vm_compute; reflexivity.
  - right; left. exists sample_pdf. repeat split; vm_compute; reflexivity.
  - right; right. exists [Byte.xff], (lit "b.txt").
    split; [left; eexists; repeat split|].
    repeat split; vm_compute; reflexivity.
Defined.

Lemma unsupported_type_is_a_text_result_witness :
  DocumentProcessor.process_file (E := offline) DocumentProcessor.default
    (Uploaded sample_docx) None fresh
  = (fresh, Return (PyStr (lit "不支持的文件类型: c.docx"))).
Proof.
  apply (unsupported_type_is_a_text_result (E := offline) DocumentProcessor.default
           sample_docx fresh); vm_compute; reflexivity.
Defined.

Lemma upload_and_bytes_agree_witness :
  DocumentProcessor.process_file_body (E := online) DocumentProcessor.default
    (Uploaded sample_txt) None fresh
  = DocumentProcessor.process_file_body (E := online) DocumentProcessor.default
      (Content_bytes (getvalue sample_txt)) (Some (name sample_txt)) fresh
  /\ DocumentProcessor.process_file_body (E := online) DocumentProcessor.default
       (Uploaded sample_pdf) None cached
     = (cached, Return (PyStr (lit "chunk one"))).
Proof.
  split.
  - destruct (upload_and_bytes_agree (E := online) DocumentProcessor.default
                sample_txt fresh eq_refl) as [Hother _].
    apply Hother. vm_compute. reflexivity.
  - destruct (upload_and_bytes_agree (E := online) DocumentProcessor.default
                sample_pdf cached eq_refl) as [_ Hpdf].
    apply (Hpdf cached [sample_chunk]). vm_compute. reflexivity.
Defined.

Lemma clear_cache_empties_the_cache_witness :
  snd (DocumentProcessor.clear_cache DocumentProcessor.default cached) = Return tt
  /\ snd (DocumentProcessor._load_from_cache sample_path
            (fst (DocumentProcessor.clear_cache DocumentProcessor.default cached)))
     = Return None.
Proof.
  destruct (clear_cache_empties_the_cache DocumentProcessor.default cached eq_refl)
    as (Hret & Hmiss & _).
  split; [exact Hret|].
  rewrite (Hmiss (getvalue sample_pdf) (name sample_pdf) sample_path); [reflexivity|].
  vm_compute. reflexivity.
Defined.

Lemma registry_stays_duplicate_free_witness :
  NoDup (processed_documents
           (fst (UIComponents.process_uploaded_files (E := online)
                   DocumentProcessor.default [sample_txt; sample_txt; sample_pdf] []
                   fresh))).
Proof.
  apply (registry_stays_duplicate_free (E := online)). vm_compute. constructor.
Defined.

Lemma failed_index_build_keeps_registration_witness :
  UIComponents.render_document_upload (E := index_down) DocumentProcessor.default
    [sample_txt] true false fresh
  = (fst (UIComponents.process_uploaded_files (E := index_down)
            DocumentProcessor.default [sample_txt] [] (notice_shown fresh)),
     Raise (ExternalError (lit "connection refused")))
  /\ processed_documents
       (fst (UIComponents.render_document_upload (E := index_down)
               DocumentProcessor.default [sample_txt] true false fresh))
     = [lit "b.txt"]
  /\ vector_store
       (fst (UIComponents.render_document_upload (E := index_down)
               DocumentProcessor.default [sample_txt] true false fresh))
     = None.
Proof.
  destruct (failed_index_build_keeps_registration (E := index_down)
              DocumentProcessor.default [sample_txt] fresh
              (fst (UIComponents.process_uploaded_files (E := index_down)
                      DocumentProcessor.default [sample_txt] [] (notice_shown fresh)))
              [mkDocument (lit "hello") [(lit "source", lit "b.txt")]]
              (ExternalError (lit "connection refused")))
    as (Hrun & Hindex & _).
  - vm_compute. reflexivity.
  - discriminate.
  - vm_compute. reflexivity.
  - rewrite (Hrun false). cbn [fst]. split; [reflexivity|].
    split; [vm_compute; reflexivity | exact Hindex].
Defined.

Lemma clear_all_resets_ingestion_witness :
  UIComponents.render_document_upload (E := online) DocumentProcessor.default
    [] false true returning
  = (set_ui [st_warning (lit "⚠️ 请在侧边栏配置向量存储以启用文档处理。");
             st_success (lit "✅ 所有文档已清除")] fresh,
     Return Rerun)
  /\ processed_documents
       (fst (UIComponents.render_document_upload (E := online)
               DocumentProcessor.default [] false true returning))
     = [].
Proof.
  assert (Hrun : UIComponents.render_document_upload (E := online)
                   DocumentProcessor.default [] false true returning
                 = (set_ui [st_warning (lit "⚠️ 请在侧边栏配置向量存储以启用文档处理。");
                            st_success (lit "✅ 所有文档已清除")] fresh,
                    Return Rerun))
    by (vm_compute; reflexivity).
  split; [exact Hrun|].
  destruct (clear_all_resets_ingestion (E := online) DocumentProcessor.default
              [] false true returning _ Hrun) as (_ & Hreg & _).
  rewrite Hrun. exact Hreg.
Defined.

Lemma logged_messages_are_never_blank_witness :
  lit "plan" <> [].
Proof.
  assert (Hin : mkMessage assistant_think (Text (lit "plan"))
                ∈ drop (length (history fresh))
                    (history (fst (App._process_response
                                     sample_response None fresh)))).
  { vm_compute. apply list_elem_of_In. right. left. reflexivity. }
  exact (proj1 (logged_messages_are_never_blank sample_response None
                  fresh _ Hin)).
Defined.

Lemma plain_turn_log_witness :
  history (fst (App.process_user_input (E := online) plain_settings (lit "q") fresh))
  = [mkMessage user (Text (lit "q"));
     mkMessage assistant (Text (lit "answer"));
     mkMessage assistant_think (Text (lit "plan"))].
Proof.
  destruct (plain_turn_log (E := online) plain_settings (lit "q") fresh
              sample_response eq_refl eq_refl) as [-> _].
  vm_compute. reflexivity.
Defined.

Lemma text_file_round_trip_witness :
  exists encoded,
    encode (lit "é【𝄞") = Some encoded
    /\ DocumentProcessor.process_file (E := offline) DocumentProcessor.default
         (Uploaded (mkUploadedFile (lit "b.txt") encoded)) None fresh
       = (fresh, Return (PyStr (lit "é【𝄞"))).
Proof.
  destruct (encode (lit "é【𝄞")) as [encoded|] eqn:Henc; [|vm_compute in Henc; discriminate].
  exists encoded. split; [reflexivity|].
  apply (text_file_round_trip (E := offline) DocumentProcessor.default
           (lit "b.txt") (lit "é【𝄞") encoded fresh);
    [vm_compute; reflexivity | vm_compute; reflexivity | exact Henc].
Defined.

Lemma unreadable_cache_file_is_replaced_witness :
  snd (DocumentProcessor._load_from_cache sample_path
         (fst (DocumentProcessor.process_file (E := online) DocumentProcessor.default
                 (Uploaded sample_pdf) None damaged)))
  = Return (Some [mkDocument (lit "a") []; mkDocument (lit "b") []])
  /\ cache_files
       (fst (DocumentProcessor.process_file (E := garbled) DocumentProcessor.default
               (Uploaded sample_pdf) None damaged))
     !! sample_path = Some None.
Proof.
  split.
  - pose proof (unreadable_cache_file_is_replaced (E := online)
                  DocumentProcessor.default sample_pdf damaged sample_path
                  [sample_page] eq_refl eq_refl eq_refl eq_refl eq_refl eq_refl)
      as (_ & _ & Hok & _).
    apply Hok. vm_compute. reflexivity.
  - pose proof (unreadable_cache_file_is_replaced (E := garbled)
                  DocumentProcessor.default sample_pdf damaged sample_path
                  [surrogate_page] eq_refl eq_refl eq_refl eq_refl eq_refl eq_refl)
      as (_ & _ & _ & Hbad).
    apply Hbad. vm_compute. discriminate.
Defined.

Lemma failed_load_leaves_no_trace_witness :
  DocumentProcessor._process_pdf_body (E := offline) DocumentProcessor.default
    (getvalue sample_pdf) (name sample_pdf) fresh
  = (fresh, Raise (ExternalError (lit "connection refused"))).
Proof.
  apply (failed_load_leaves_no_trace (E := offline) DocumentProcessor.default
           (getvalue sample_pdf) (name sample_pdf) sample_path fresh);
    vm_compute; reflexivity.
Defined.
